(** * NodeGaze dashboard: pagination and the payments page controller

    A shallow embedding of the TypeScript front end of NodeGaze:

    - the pagination arithmetic of the events page ([totalPages],
      [startIndex], [currentData], [getPaginationNumbers]);
    - the payments page ([Page]): its React state, the three count
      effects, [handleApplyFilters], and the badge rendering of both
      revisions of the page that the repository carries.

    Numbers.  Page numbers, lengths, counts and satoshi amounts are
    integers; a finite JavaScript number is modelled by [Z] and the
    arithmetic used by the source ([Math.max], [Math.min], [Math.floor],
    [Math.ceil] of a quotient) is exact on them.  Where the source can
    meet a non-finite number (the result of [Number(...)]) the type
    [number] adds [NaN] and the two infinities. *)

From Stdlib Require Import ZArith List Bool String Ascii Lia Permutation.
Import ListNotations.
Local Open Scope string_scope.
Local Open Scope list_scope.
Local Open Scope Z_scope.
Set Warnings "-register-all".

(** ** JavaScript helpers on integers *)

(** [Math.ceil(a / b)] for integers [a] and [b > 0]. *)
Definition Math_ceil_div (a b : Z) : Z := - ((- a) / b).

(** [Math.floor(a / b)] for integers [a] and [b > 0]. *)
Definition Math_floor_div (a b : Z) : Z := a / b.

(** [Array.prototype.slice(start, end)]: a negative index counts from the
    end of the array, every index is clamped to the array. *)
Definition slice {A : Type} (l : list A) (s e : Z) : list A :=
  let len := Z.of_nat (List.length l) in
  let k := if s <? 0 then Z.max (len + s) 0 else Z.min s len in
  let f := if e <? 0 then Z.max (len + e) 0 else Z.min e len in
  firstn (Z.to_nat (f - k)) (skipn (Z.to_nat k) l).

(** [Array.from({ length: n }, (_, i) => f i)]. *)
Definition Array_from {A : Type} (n : Z) (f : Z -> A) : list A :=
  map (fun i => f (Z.of_nat i)) (seq 0 (Z.to_nat n)).

(** A contiguous run of [n] integers starting at [start]. *)
Fixpoint run_from (start : Z) (n : nat) : list Z :=
  match n with
  | O => []
  | S n' => start :: run_from (start + 1) n'
  end.

(** ** The events page *)

Module EventsPage.

(** [const totalPages = Math.ceil(endpointsData.length / itemsPerPage)] *)
Definition totalPages (endpointsData_length itemsPerPage : Z) : Z :=
  Math_ceil_div endpointsData_length itemsPerPage.

(** [const startIndex = (currentPage - 1) * itemsPerPage] *)
Definition startIndex (currentPage itemsPerPage : Z) : Z :=
  (currentPage - 1) * itemsPerPage.

(** [const currentData = endpointsData.slice(startIndex, startIndex + itemsPerPage)] *)
Definition currentData {A : Type} (endpointsData : list A)
           (currentPage itemsPerPage : Z) : list A :=
  slice endpointsData (startIndex currentPage itemsPerPage)
        (startIndex currentPage itemsPerPage + itemsPerPage).

(** [for (let i = start; i <= end; i++) pages.push(i)], the loop of
    [getPaginationNumbers]; [fuel] bounds the number of iterations. *)
Fixpoint for_push (fuel : nat) (i end_ : Z) (pages : list Z) : list Z :=
  match fuel with
  | O => pages
  | S fuel' =>
      if i <=? end_ then for_push fuel' (i + 1) end_ (pages ++ [i])
      else pages
  end.

(** [getPaginationNumbers], with the local constant [maxVisible] taken as
    an argument. *)
Definition getPaginationNumbersWith (maxVisible totalPages currentPage : Z)
  : list Z :=
  let start := Z.max 1 (currentPage - Math_floor_div maxVisible 2) in
  let end_ := Z.min totalPages (start + maxVisible - 1) in
  let start :=
    if end_ - start + 1 <? maxVisible
    then Z.max 1 (end_ - maxVisible + 1)
    else start in
  for_push (Z.to_nat (end_ - start + 1)) start end_ [].

(** [const maxVisible = 5] *)
Definition maxVisible : Z := 5.

Definition getPaginationNumbers (totalPages currentPage : Z) : list Z :=
  getPaginationNumbersWith maxVisible totalPages currentPage.

(** The entries of the "Go to page" select:
    [Array.from({ length: totalPages }, (_, i) => i + 1)]. *)
Definition goToPageItems (totalPages : Z) : list Z :=
  Array_from totalPages (fun i => i + 1).

(** The page owns one piece of pagination state,
    [const [currentPage, setCurrentPage] = useState(1)]. *)
Definition initialPage : Z := 1.

(** The two controls that call [setCurrentPage]: a numbered button, which
    exists for each element of [getPaginationNumbers()], and an entry of
    the select, which exists for each element of [goToPageItems]. *)
Inductive UiEvent : Type :=
| ClickPage (pageNum : Z)
| SelectPage (value : Z).

Definition Z_mem (x : Z) (l : list Z) : bool := existsb (Z.eqb x) l.

Definition rendered (totalPages currentPage : Z) (ev : UiEvent) : bool :=
  match ev with
  | ClickPage p => Z_mem p (getPaginationNumbers totalPages currentPage)
  | SelectPage v => Z_mem v (goToPageItems totalPages)
  end.

(** [onClick={() => setCurrentPage(pageNum)}] and
    [onValueChange={(value) => setCurrentPage(parseInt(value))}];
    an event on a control that is not rendered cannot occur. *)
Definition step (totalPages currentPage : Z) (ev : UiEvent) : Z :=
  if rendered totalPages currentPage ev then
    match ev with
    | ClickPage p => p
    | SelectPage v => v
    end
  else currentPage.

Definition run (totalPages : Z) (evs : list UiEvent) (currentPage : Z) : Z :=
  fold_left (step totalPages) evs currentPage.

End EventsPage.

(** ** The pagination contract in the words of the specification *)

(** [computePages(totalItems, pageSize) = max(1, ceil(totalItems/pageSize))],
    the specification's formula, to be compared with
    [EventsPage.totalPages]. *)
Definition computePages_spec (totalItems pageSize : Z) : Z :=
  Z.max 1 (Math_ceil_div totalItems pageSize).

(** Modelled from the spec: [clampPage], which no source file defines
    (the events page passes page numbers to [setCurrentPage] unclamped):
    [clampPage(requested, totalPages) = min(max(1, requested), totalPages)]. *)
Definition clampPage (requested totalPages : Z) : Z :=
  Z.min (Z.max 1 requested) totalPages.


(** ** JavaScript values met by the payments page *)

(** A JavaScript number: an integer, or one of the non-finite values. *)
Inductive number : Type :=
| Fin (z : Z)
| NaN
| Infinity
| NegInfinity.

(** The value returned by [res.json()], and the intermediate values of the
    optional chains over it.  An object is the list of its own
    properties. *)
Inductive value : Type :=
| VUndefined
| VNull
| VBool (b : bool)
| VNum (n : number)
| VStr (s : string)
| VArr (items : list value)
| VObj (fields : list (string * value)).

Fixpoint lookup (name : string) (fields : list (string * value)) : value :=
  match fields with
  | [] => VUndefined
  | (k, v) :: rest => if String.eqb k name then v else lookup name rest
  end.

(** [v?.name] for the property names the page reads ([pagination],
    [total_items], [data], [items], [length]): [undefined] on a nullish
    receiver, the own property of an object, the length of an array or of
    a string, and [undefined] on any other receiver. *)
Definition opt_get (v : value) (name : string) : value :=
  match v with
  | VUndefined | VNull => VUndefined
  | VObj fields => lookup name fields
  | VArr items =>
      if String.eqb name "length"
      then VNum (Fin (Z.of_nat (List.length items))) else VUndefined
  | VStr s =>
      if String.eqb name "length"
      then VNum (Fin (Z.of_nat (String.length s))) else VUndefined
  | VBool _ | VNum _ => VUndefined
  end.

(** [a ?? b] *)
Definition coalesce (a b : value) : value :=
  match a with
  | VUndefined | VNull => b
  | _ => a
  end.

(** The values that [??] and [?.] treat as absent. *)
Definition is_nullish (v : value) : bool :=
  match v with
  | VUndefined | VNull => true
  | _ => false
  end.

(** The two conversions of the language that [Number] relies on and that
    the page does not define: reading a number out of a string, and the
    string form of an array. *)
Class JsBuiltins : Type := {
  StringToNumber : string -> number;
  Array_toString : list value -> string
}.

(** [Number(v)].  An array converts through its string form; a plain
    object converts through ["[object Object]"], which is not a number. *)
Definition Number `{JsBuiltins} (v : value) : number :=
  match v with
  | VUndefined => NaN
  | VNull => Fin 0
  | VBool true => Fin 1
  | VBool false => Fin 0
  | VNum n => n
  | VStr s => StringToNumber s
  | VArr items => StringToNumber (Array_toString items)
  | VObj _ => NaN
  end.

(** [n || 0] on a number: [0] and [NaN] are falsy. *)
Definition or_zero (n : number) : number :=
  match n with
  | Fin 0 => Fin 0
  | NaN => Fin 0
  | _ => n
  end.

(** What the two awaits of a count effect can produce: [fetch] rejects,
    [res.json()] rejects, or a parsed body. *)
Inductive Outcome : Type :=
| FetchRejected
| JsonRejected
| Json (data : value).

(** React runs an effect after the first render, and after a later render
    when its dependency array differs from that of the previous render. *)
Fixpoint deps_eqb {D : Type} (eqb : D -> D -> bool) (prev next : list D) : bool :=
  match prev, next with
  | [], [] => true
  | p :: prev', n :: next' => eqb p n && deps_eqb eqb prev' next'
  | _, _ => false
  end.

Definition useEffect_runs {D : Type} (eqb : D -> D -> bool)
           (first_render : bool) (prev next : list D) : bool :=
  first_render || negb (deps_eqb eqb prev next).

(** ** The payments page with category counts and filters *)

Module PaymentsPage.

Inductive PaymentState : Type := settled | failed | pending.

Inductive Operator : Type := gte | lte | eq_.

(** [export type PaymentFilters]; an absent field is [None]. *)
Record PaymentFilters : Type := {
  paymentState : option PaymentState;
  operator : option Operator;
  value_ : option number;
  from : option string;   (* YYYY-MM-DD *)
  to : option string      (* YYYY-MM-DD *)
}.

(** [{}] *)
Definition no_filters : PaymentFilters :=
  {| paymentState := None; operator := None; value_ := None;
     from := None; to := None |}.

Definition PaymentState_string (s : PaymentState) : string :=
  match s with
  | settled => "settled"
  | failed => "failed"
  | pending => "pending"
  end.

Section WithPayment.

(** The record type of [@/components/payment-table]. *)
Context {Payment : Type}.
Context `{JsBuiltins}.

(** The six [React.useState] cells of [Page]. *)
Record PageState : Type := {
  selectedState : string;
  payments : list Payment;
  incomingCount : number;
  outgoingCount : number;
  allCount : number;
  filters : PaymentFilters
}.

Definition initial : PageState :=
  {| selectedState := "all"; payments := []; incomingCount := Fin 0;
     outgoingCount := Fin 0; allCount := Fin 0; filters := no_filters |}.

Definition setSelectedState (s : string) (st : PageState) : PageState :=
  {| selectedState := s; payments := payments st;
     incomingCount := incomingCount st; outgoingCount := outgoingCount st;
     allCount := allCount st; filters := filters st |}.

Definition setPayments (ps : list Payment) (st : PageState) : PageState :=
  {| selectedState := selectedState st; payments := ps;
     incomingCount := incomingCount st; outgoingCount := outgoingCount st;
     allCount := allCount st; filters := filters st |}.

Definition setIncomingCount (n : number) (st : PageState) : PageState :=
  {| selectedState := selectedState st; payments := payments st;
     incomingCount := n; outgoingCount := outgoingCount st;
     allCount := allCount st; filters := filters st |}.

Definition setOutgoingCount (n : number) (st : PageState) : PageState :=
  {| selectedState := selectedState st; payments := payments st;
     incomingCount := incomingCount st; outgoingCount := n;
     allCount := allCount st; filters := filters st |}.

Definition setAllCount (n : number) (st : PageState) : PageState :=
  {| selectedState := selectedState st; payments := payments st;
     incomingCount := incomingCount st; outgoingCount := outgoingCount st;
     allCount := n; filters := filters st |}.

Definition setFilters (f : PaymentFilters) (st : PageState) : PageState :=
  {| selectedState := selectedState st; payments := payments st;
     incomingCount := incomingCount st; outgoingCount := outgoingCount st;
     allCount := allCount st; filters := f |}.

(** [data?.pagination?.total_items] *)
Definition total_items (data : value) : value :=
  opt_get (opt_get data "pagination") "total_items".

(** [data?.data?.items?.length] *)
Definition items_length (data : value) : value :=
  opt_get (opt_get (opt_get data "data") "items") "length".

(** [const count = data?.pagination?.total_items
                   ?? data?.data?.items?.length ?? 0] *)
Definition count (data : value) : value :=
  coalesce (coalesce (total_items data) (items_length data)) (VNum (Fin 0)).

(** The argument of the setter in each count effect: [Number(count) || 0]
    in the [try] branch, [0] in the [catch] branch. *)
Definition settled_count (o : Outcome) : number :=
  match o with
  | Json data => or_zero (Number (count data))
  | FetchRejected | JsonRejected => Fin 0
  end.

(** The three count effects, from the point where the awaits settle. *)
Definition fetchIncomingCount (o : Outcome) (st : PageState) : PageState :=
  setIncomingCount (settled_count o) st.

Definition fetchAllCount (o : Outcome) (st : PageState) : PageState :=
  setAllCount (settled_count o) st.

Definition fetchOutgoingCount (o : Outcome) (st : PageState) : PageState :=
  setOutgoingCount (settled_count o) st.

(** The requests the three effects send. *)
Definition incoming_url : string :=
  "/api/payments?payment_types=incoming&per_page=1&page=1".
Definition all_url : string := "/api/payments?per_page=1&page=1".
Definition outgoing_url : string :=
  "/api/payments?payment_types=outgoing&per_page=1&page=1".

(** [handleApplyFilters] *)
Definition handleApplyFilters (applied : PaymentFilters) (st : PageState)
  : PageState :=
  let st := setFilters applied st in
  match paymentState applied with
  | Some s => setSelectedState (PaymentState_string s) st
  | None => st
  end.

(** The number shown in the badge of the button with key [key]. *)
Definition badge (key : string) (st : PageState) : number :=
  if String.eqb key "incoming" then incomingCount st
  else if String.eqb key "all" then allCount st
  else if String.eqb key "outgoing" then outgoingCount st
  else Fin 0.

(** The page at run time: its state, whether the first render has been
    committed, and the requests sent so far, oldest first. *)
Record Runtime : Type := {
  state : PageState;
  mounted : bool;
  requests : list string
}.

Definition start : Runtime :=
  {| state := initial; mounted := false; requests := [] |}.

Inductive Event : Type :=
| Mount
| IncomingCountSettled (o : Outcome)
| AllCountSettled (o : Outcome)
| OutgoingCountSettled (o : Outcome)
| ApplyFilters (applied : PaymentFilters)
| SetPayments (ps : list Payment)
| ClickType (key : string).

(** The state change of an event.  [SetPayments] is the only setter the
    page hands to [DataTable]; the [onClick] of a type button is empty. *)
Definition handle (ev : Event) (st : PageState) : PageState :=
  match ev with
  | Mount => st
  | IncomingCountSettled o => fetchIncomingCount o st
  | AllCountSettled o => fetchAllCount o st
  | OutgoingCountSettled o => fetchOutgoingCount o st
  | ApplyFilters applied => handleApplyFilters applied st
  | SetPayments ps => setPayments ps st
  | ClickType _ => st
  end.

(** The requests sent when a render is committed: each of the three
    effects has the dependency array [[]]. *)
Definition effects (first_render : bool) : list string :=
  (if useEffect_runs Z.eqb first_render [] [] then [incoming_url] else [])
  ++ (if useEffect_runs Z.eqb first_render [] [] then [all_url] else [])
  ++ (if useEffect_runs Z.eqb first_render [] [] then [outgoing_url] else []).

Definition step (rt : Runtime) (ev : Event) : Runtime :=
  {| state := handle ev (state rt);
     mounted := true;
     requests := requests rt ++ effects (negb (mounted rt)) |}.

Definition run (evs : list Event) (rt : Runtime) : Runtime :=
  fold_left step evs rt.

End WithPayment.

Arguments PageState : clear implicits.
Arguments Runtime : clear implicits.
Arguments Event : clear implicits.

End PaymentsPage.

(** ** The payments page with type tabs

    The revision of the page at [frontend/src/app/payments/page.tsx]. *)

Module PaymentsTabsPage.

Section WithPayment.

Context {Payment : Type}.

(** [selectedType] and [payments]. *)
Record PageState : Type := {
  selectedType : string;
  payments : list Payment
}.

Definition initial : PageState :=
  {| selectedType := "all"; payments := [] |}.

Definition setSelectedType (key : string) (st : PageState) : PageState :=
  {| selectedType := key; payments := payments st |}.

Definition setPayments (ps : list Payment) (st : PageState) : PageState :=
  {| selectedType := selectedType st; payments := ps |}.

(** [{type.key === "all" ? payments.length : 0}] *)
Definition badge (key : string) (st : PageState) : Z :=
  if String.eqb key "all" then Z.of_nat (List.length (payments st)) else 0.

End WithPayment.

Arguments PageState : clear implicits.

End PaymentsTabsPage.

(** ** The filter validation rule in the words of the specification *)

(** The specification's rule for [apply]: the threshold must be a finite,
    non-negative amount when the operator is set, and the start of the date
    range must not be after its end.  Dates are [YYYY-MM-DD] strings, whose
    alphabetical order is the chronological one.  [invalid_criteria_spec]
    holds of the criteria that the rule rejects; it is to be compared with
    what [PaymentsPage.handleApplyFilters] does. *)
Definition threshold_invalid_spec (f : PaymentsPage.PaymentFilters) : bool :=
  match PaymentsPage.operator f, PaymentsPage.value_ f with
  | Some _, Some (Fin z) => z <? 0
  | Some _, Some _ => true
  | Some _, None => true
  | None, _ => false
  end.

Definition date_range_invalid_spec (f : PaymentsPage.PaymentFilters) : bool :=
  match PaymentsPage.from f, PaymentsPage.to f with
  | Some a, Some b => String.ltb b a
  | _, _ => false
  end.

Definition invalid_criteria_spec (f : PaymentsPage.PaymentFilters) : bool :=
  threshold_invalid_spec f || date_range_invalid_spec f.

(** ** The collection fetcher of the specification *)

(** Modelled from the spec: the collection fetcher.  The payments page hands
    [payments], [setPayments], [selectedState] and [filters] to [DataTable]
    of [@/components/payment-table]; that component, which issues the
    record fetches, is not among the source files, and no source file tags
    a request.  The definitions below follow sections 4.2 and 5 of the
    specification: every fetch issued on a tab is tagged with the next
    sequence number of that tab, and a response is applied to the visible
    snapshot of its tab only when its sequence number is the latest issued
    on that tab. *)
Module Fetcher.

Inductive Direction : Type := all | incoming | outgoing.

Definition Direction_eqb (a b : Direction) : bool :=
  match a, b with
  | all, all | incoming, incoming | outgoing, outgoing => true
  | _, _ => false
  end.

Section WithRecord.

Context {PaymentRecord : Type}.

(** Modelled from the spec: what [fetch] returns, [{records, totalItems}]
    (section 4.2); the fetcher is not among the source files. *)
Record Page : Type := {
  records : list PaymentRecord;
  totalItems : Z
}.

(** Modelled from the spec: the latest sequence number issued on each tab
    and the snapshot each tab shows (sections 4.2 and 5); the fetcher is
    not among the source files. *)
Record State : Type := {
  issued : Direction -> nat;
  visible : Direction -> Page
}.

Definition update {A : Type} (f : Direction -> A) (t : Direction) (v : A)
  : Direction -> A :=
  fun t' => if Direction_eqb t' t then v else f t'.

(** Modelled from the spec: issuing a fetch on tab [t] tags it with the
    next sequence number of that tab (section 4.2); the fetcher is not
    among the source files.  The token of the request is the value of
    [issued] at [t] afterwards. *)
Definition fetch (t : Direction) (s : State) : State :=
  {| issued := update (issued s) t (S (issued s t));
     visible := visible s |}.

(** Modelled from the spec: a response for tab [t] carrying sequence number
    [token] is applied when [token] is the latest issued on [t] and
    discarded otherwise (sections 4.2 and 5); the fetcher is not among the
    source files. *)
Definition resolve (t : Direction) (token : nat) (r : Page) (s : State)
  : State :=
  if Nat.eqb token (issued s t) then
    {| issued := issued s; visible := update (visible s) t r |}
  else s.

Inductive Event : Type :=
| Fetch (t : Direction)
| Resolve (t : Direction) (token : nat) (r : Page).

Definition step (s : State) (ev : Event) : State :=
  match ev with
  | Fetch t => fetch t s
  | Resolve t token r => resolve t token r s
  end.

Definition run (evs : list Event) (s : State) : State :=
  fold_left step evs s.

(** The events other than a fetch on tab [t]. *)
Definition no_fetch_on (t : Direction) (ev : Event) : bool :=
  match ev with
  | Fetch t' => negb (Direction_eqb t' t)
  | Resolve _ _ _ => true
  end.

(** The events other than a response for tab [t] carrying [token]. *)
Definition no_response_to (t : Direction) (token : nat) (ev : Event) : bool :=
  match ev with
  | Fetch _ => true
  | Resolve t' token' _ => negb (Direction_eqb t' t && Nat.eqb token' token)
  end.

End WithRecord.

Arguments Page : clear implicits.
Arguments State : clear implicits.
Arguments Event : clear implicits.

End Fetcher.

(** ** The payments page and its table *)

Module PaymentsView.

Section WithPayment.

Context {Payment : Type}.
Context `{JsBuiltins}.

(** The props the payments page passes to [DataTable]:
    [payments={payments} setPayments={setPayments}
     selectedState={selectedState} filters={filters}]; [setPayments] is the
    only setter among them. *)
Record TableProps : Type := {
  payments_prop : list Payment;
  selectedState_prop : string;
  filters_prop : PaymentsPage.PaymentFilters
}.

Definition props (st : PaymentsPage.PageState Payment) : TableProps :=
  {| payments_prop := PaymentsPage.payments st;
     selectedState_prop := PaymentsPage.selectedState st;
     filters_prop := PaymentsPage.filters st |}.

(** The component [DataTable] of [@/components/payment-table] is not among
    the source files; it is taken as a parameter: a state of its own, in
    which it holds the current page, and what a render with given props
    does to that state. *)
Class DataTable : Type := {
  TableState : Type;
  render : TableProps -> TableState -> TableState;
  currentPage : TableState -> Z
}.

Context `{DataTable}.

(** Whether the handling of a page event ends in a render of the page and
    of the table in it: the first render does, and so does every handler
    that calls a state setter; the [onClick] of a type button,
    [() => {/* keeping counts clickable but not affecting selectedState */}],
    calls none. *)
Definition rerenders (ev : PaymentsPage.Event Payment) : bool :=
  match ev with
  | PaymentsPage.ClickType _ => false
  | _ => true
  end.

(** The page together with the table it contains. *)
Record App : Type := {
  page : PaymentsPage.PageState Payment;
  table : TableState
}.

(** Either an event of the page, or the table acting on its own (a page
    button, a fetch of its own settling), which takes its state to one of
    its choice; what the table does to the page goes through [setPayments],
    an event of the page. *)
Inductive AppEvent : Type :=
| OnPage (ev : PaymentsPage.Event Payment)
| InTable (next : TableState).

Definition app_step (a : App) (e : AppEvent) : App :=
  match e with
  | OnPage ev =>
      let st := PaymentsPage.handle ev (page a) in
      {| page := st;
         table := if rerenders ev then render (props st) (table a)
                  else table a |}
  | InTable next => {| page := page a; table := next |}
  end.

Definition app_run (evs : list AppEvent) (a : App) : App :=
  fold_left app_step evs a.

(** The events that are the table's own doing: a change of its state, and
    a call of [setPayments]. *)
Definition by_table (e : AppEvent) : bool :=
  match e with
  | InTable _ => true
  | OnPage (PaymentsPage.SetPayments _) => true
  | OnPage _ => false
  end.

End WithPayment.

Arguments TableProps : clear implicits.
Arguments DataTable : clear implicits.

End PaymentsView.


(** ** The events page: what is rendered *)

Module EventsPageView.

(** [variant={currentPage === pageNum ? "default" : "outline"}], the style
    of a numbered button. *)
Definition variant (currentPage pageNum : Z) : string :=
  if currentPage =? pageNum then "default" else "outline".

(** The buttons of the pagination bar, each with its React key and its
    variant: [getPaginationNumbers().map((pageNum) => <Button key={pageNum}
    variant=... />)]. *)
Definition buttons (totalPages currentPage : Z) : list (Z * string) :=
  map (fun pageNum => (pageNum, variant currentPage pageNum))
      (EventsPage.getPaginationNumbers totalPages currentPage).

(** The rows of the table on every page that the select offers, in order:
    [currentData] for each entry of [goToPageItems]. *)
Definition all_pages {A : Type} (endpointsData : list A) (itemsPerPage : Z)
  : list (list A) :=
  map (fun p => EventsPage.currentData endpointsData p itemsPerPage)
      (EventsPage.goToPageItems
         (EventsPage.totalPages (Z.of_nat (List.length endpointsData))
                                itemsPerPage)).

End EventsPageView.

(** ** The payments page: reading a run of events *)

Module PaymentsPageTrace.

(** The settlement state named by the most recent [ApplyFilters] event whose
    criteria set [paymentState], if any. *)
Fixpoint last_payment_state {Payment : Type}
         (evs : list (PaymentsPage.Event Payment))
  : option PaymentsPage.PaymentState :=
  match evs with
  | [] => None
  | ev :: rest =>
      match last_payment_state rest with
      | Some s => Some s
      | None =>
          match ev with
          | PaymentsPage.ApplyFilters applied => PaymentsPage.paymentState applied
          | _ => None
          end
      end
  end.

(** The criteria of the most recent [ApplyFilters] event, if any. *)
Fixpoint last_applied {Payment : Type}
         (evs : list (PaymentsPage.Event Payment))
  : option PaymentsPage.PaymentFilters :=
  match evs with
  | [] => None
  | ev :: rest =>
      match last_applied rest with
      | Some applied => Some applied
      | None =>
          match ev with
          | PaymentsPage.ApplyFilters applied => Some applied
          | _ => None
          end
      end
  end.

(** [{ pagination: { total_items: total }, data: { items: items } }] with
    any value as the total. *)
Definition body (total : value) (items : value) : value :=
  VObj [("pagination", VObj [("total_items", total)]);
        ("data", VObj [("items", items)])].

End PaymentsPageTrace.

(** ** The payment details page *)

(** JavaScript truthiness of a value: [undefined], [null], [false], [0],
    [NaN] and the empty string are falsy. *)
Definition truthy (v : value) : bool :=
  match v with
  | VUndefined | VNull => false
  | VBool b => b
  | VNum (Fin 0) | VNum NaN => false
  | VNum _ => true
  | VStr s => negb (String.eqb s "")
  | VArr _ | VObj _ => true
  end.

(** [v === "..."] *)
Definition is_placeholder (v : value) : bool :=
  match v with
  | VStr s => String.eqb s "..."
  | _ => false
  end.

(** [v === undefined] *)
Definition is_undefined (v : value) : bool :=
  match v with
  | VUndefined => true
  | _ => false
  end.

(** [v.name], which throws a [TypeError] ([None]) on [undefined] and
    [null]. *)
Definition get (v : value) (name : string) : option value :=
  if is_nullish v then None else Some (opt_get v name).

Module PaymentDetailsPage.

(** [interface PaymentData]; an absent property is [VUndefined]. *)
Record PaymentData : Type := {
  state : value;
  type_ : value;
  amount_sat : value;
  amount_usd : value;
  routing_fee : value;
  creation_time : value;
  invoice : value;
  payment_hash : value;
  completed_at : value;
  paymentId : value;
  public : value;
  date : value
}.

(** The object literal passed to [setPaymentData]: every property is read
    from [payment] with ["..."] in place of a missing one, [creation_time]
    with [undefined]; [paymentId] is not among its properties. *)
Definition read_payment (payment : value) : PaymentData :=
  {| state := coalesce (opt_get payment "state") (VStr "...");
     type_ := coalesce (opt_get payment "type") (VStr "...");
     amount_sat := coalesce (opt_get payment "amount_sat") (VStr "...");
     amount_usd := coalesce (opt_get payment "amount_usd") (VStr "...");
     routing_fee := coalesce (opt_get payment "routing_fee") (VStr "...");
     creation_time := coalesce (opt_get payment "creation_time") VUndefined;
     invoice := coalesce (opt_get payment "invoice") (VStr "...");
     payment_hash := coalesce (opt_get payment "payment_hash") (VStr "...");
     completed_at := coalesce (opt_get payment "completed_at") (VStr "...");
     paymentId := VUndefined;
     public := coalesce (opt_get payment "public") (VStr "...");
     date := coalesce (opt_get payment "date") (VStr "...") |}.

(** [fetchPaymentData], from the point where the awaits settle, on the
    state cell [paymentData] ([None] is [null]).  A rejected await, a
    nullish body ([json.data] throws) and a nullish [json.data]
    ([payment.state] throws) all end in the [catch] branch, which only
    logs. *)
Definition fetchPaymentData (o : Outcome) (paymentData : option PaymentData)
  : option PaymentData :=
  match o with
  | Json json =>
      match get json "data" with
      | Some payment =>
          if is_nullish payment then paymentData
          else Some (read_payment payment)
      | None => paymentData
      end
  | FetchRejected | JsonRejected => paymentData
  end.

(** What every record built by [read_payment] satisfies: the text
    properties are neither [undefined] nor [null], [creation_time] is not
    [null], and [paymentId] is absent. *)
Definition is_complete (d : PaymentData) : bool :=
  negb (is_nullish (state d)) && negb (is_nullish (type_ d))
  && negb (is_nullish (amount_sat d)) && negb (is_nullish (amount_usd d))
  && negb (is_nullish (routing_fee d)) && negb (is_nullish (invoice d))
  && negb (is_nullish (payment_hash d)) && negb (is_nullish (completed_at d))
  && negb (is_nullish (public d)) && negb (is_nullish (date d))
  && (is_undefined (creation_time d) || negb (is_nullish (creation_time d)))
  && is_undefined (paymentId d).

(** [paymentData?.f] *)
Definition field (f : PaymentData -> value) (paymentData : option PaymentData)
  : value :=
  match paymentData with
  | None => VUndefined
  | Some d => f d
  end.

(** A text cell: [{paymentData?.f ?? "..."}]. *)
Definition text_cell (f : PaymentData -> value)
           (paymentData : option PaymentData) : value :=
  coalesce (field f paymentData) (VStr "...").

(** What a computed cell shows: the placeholder ["..."], a number through
    [Intl.NumberFormat], or the local date of a number of seconds. *)
Inductive Cell : Type :=
| Placeholder
| Formatted (n : number)
| LocaleDate (secs_since_epoch : value).

(** The amount and fee cells:
    [paymentData?.f !== undefined && paymentData?.f !== "..."
       ? new Intl.NumberFormat(...).format(Number(paymentData.f)) : "..."]. *)
Definition number_cell `{JsBuiltins} (f : PaymentData -> value)
           (paymentData : option PaymentData) : Cell :=
  if negb (is_undefined (field f paymentData))
     && negb (is_placeholder (field f paymentData))
  then Formatted (Number (field f paymentData))
  else Placeholder.

(** The date cell: [paymentData?.creation_time?.secs_since_epoch
       ? new Date(... * 1000).toLocaleDateString() : "..."]. *)
Definition date_cell (paymentData : option PaymentData) : Cell :=
  let secs := opt_get (field creation_time paymentData) "secs_since_epoch" in
  if truthy secs then LocaleDate secs else Placeholder.

(** [copyToClipboard], on the list of texts written to the clipboard,
    oldest first. *)
Definition copyToClipboard (text : value) (clipboard : list value) : list value :=
  if negb (truthy text) || is_placeholder text then clipboard
  else clipboard ++ [text].

(** The page at run time. *)
Record Runtime : Type := {
  paymentData : option PaymentData;
  clipboard : list value
}.

(** [React.useState<PaymentData | null>(null)] and an untouched
    clipboard. *)
Definition start : Runtime := {| paymentData := None; clipboard := [] |}.

(** The three copy buttons. *)
Inductive CopyButton : Type := CopyInvoice | CopyPaymentHash | CopyPublic.

Definition copied (b : CopyButton) : PaymentData -> value :=
  match b with
  | CopyInvoice => invoice
  | CopyPaymentHash => payment_hash
  | CopyPublic => public
  end.

(** A fetch of the effect settles (the effect runs again whenever [id]
    changes), or a copy button is clicked:
    [onClick={() => copyToClipboard(paymentData?.invoice)}]. *)
Inductive Event : Type :=
| Settled (o : Outcome)
| Click (b : CopyButton).

Definition step (rt : Runtime) (ev : Event) : Runtime :=
  match ev with
  | Settled o =>
      {| paymentData := fetchPaymentData o (paymentData rt);
         clipboard := clipboard rt |}
  | Click b =>
      {| paymentData := paymentData rt;
         clipboard := copyToClipboard (field (copied b) (paymentData rt))
                                      (clipboard rt) |}
  end.

Definition run (evs : list Event) (rt : Runtime) : Runtime :=
  fold_left step evs rt.

End PaymentDetailsPage.

(** ** The header of the payments page *)

Module PaymentHeader.

(** [s.split("/")]: the pieces of [s] between slashes; never empty. *)
Fixpoint split_slash (s : string) : list string :=
  match s with
  | EmptyString => [EmptyString]
  | String c rest =>
      if Ascii.eqb c "/"
      then EmptyString :: split_slash rest
      else match split_slash rest with
           | [] => [String c EmptyString]
           | piece :: pieces => String c piece :: pieces
           end
  end.

(** [pieces.pop()]: the last element, [undefined] ([None]) on an empty
    array. *)
Fixpoint pop (pieces : list string) : option string :=
  match pieces with
  | [] => None
  | [piece] => Some piece
  | _ :: rest => pop rest
  end.

(** [const last = pathname.split("/").pop() ?? ""] *)
Definition last (pathname : string) : string :=
  match pop (split_slash pathname) with
  | Some piece => piece
  | None => ""
  end.

(** [c.toUpperCase()] on the one character [last.charAt(0)], for an ASCII
    character: the letters [a] to [z] become [A] to [Z] and every other
    ASCII character stays.  Outside ASCII the case mapping of the language
    can give another number of characters (["ß"] gives ["SS"]); it is not
    modelled, and the result is [None]. *)
Definition toUpperCase (c : ascii) : option ascii :=
  let n := nat_of_ascii c in
  if Nat.leb 128 n then None
  else if (Nat.leb 97 n && Nat.leb n 122)%bool then Some (ascii_of_nat (n - 32))
  else Some c.

(** [const pageTitle = last
       ? last.charAt(0).toUpperCase() + last.slice(1) : ""];
    [None] when the segment begins with a character outside ASCII. *)
Definition pageTitle (pathname : string) : option string :=
  match last pathname with
  | EmptyString => Some ""
  | String c rest =>
      match toUpperCase c with
      | Some C => Some (String C rest)
      | None => None
      end
  end.

(** [if (!pageTitle) return null]: whether the header renders at all. *)
Definition renders (pathname : string) : option bool :=
  match pageTitle pathname with
  | Some title => Some (negb (String.eqb title ""))
  | None => None
  end.

(** Whether a slash occurs in a string. *)
Fixpoint has_slash (s : string) : bool :=
  match s with
  | EmptyString => false
  | String c rest => Ascii.eqb c "/" || has_slash rest
  end.

End PaymentHeader.

(** ** More sample inputs *)

(** [{ data: { state: "settled", invoice: "lnbc1", amount_sat: 2500,
       paymentId: "p-1", creation_time: null } }] *)
Definition details_body : value :=
  VObj [("data",
         VObj [("state", VStr "settled"); ("invoice", VStr "lnbc1");
               ("amount_sat", VNum (Fin 2500)); ("paymentId", VStr "p-1");
               ("creation_time", VNull)])].

(** ** Sample inputs *)

(** An instance of the two conversions for running the definitions on
    bodies whose totals are numbers: it reads no string as a number. *)
Definition plain_builtins : JsBuiltins :=
  {| StringToNumber := fun _ => NaN; Array_toString := fun _ => "" |}.

(** [{ pagination: { total_items: n }, data: { items: items } }] *)
Definition envelope (n : Z) (items : list value) : value :=
  VObj [("pagination", VObj [("total_items", VNum (Fin n))]);
        ("data", VObj [("items", VArr items)])].

(** [{ data: { items: items } }], an envelope without its total. *)
Definition envelope_without_total (items : list value) : value :=
  VObj [("data", VObj [("items", VArr items)])].

(** [{ operator: "gte", value: -5 }] *)
Definition negative_threshold : PaymentsPage.PaymentFilters :=
  {| PaymentsPage.paymentState := None;
     PaymentsPage.operator := Some PaymentsPage.gte;
     PaymentsPage.value_ := Some (Fin (-5));
     PaymentsPage.from := None; PaymentsPage.to := None |}.

(** [{ from: "2024-02-01", to: "2024-01-31" }] *)
Definition reversed_range : PaymentsPage.PaymentFilters :=
  {| PaymentsPage.paymentState := None; PaymentsPage.operator := None;
     PaymentsPage.value_ := None;
     PaymentsPage.from := Some "2024-02-01";
     PaymentsPage.to := Some "2024-01-31" |}.

(** [{ paymentState: "settled", operator: "gte", value: 1000,
       from: "2024-01-01", to: "2024-01-31" }] *)
Definition settled_january : PaymentsPage.PaymentFilters :=
  {| PaymentsPage.paymentState := Some PaymentsPage.settled;
     PaymentsPage.operator := Some PaymentsPage.gte;
     PaymentsPage.value_ := Some (Fin 1000);
     PaymentsPage.from := Some "2024-01-01";
     PaymentsPage.to := Some "2024-01-31" |}.

(** [{ pagination: { total_items: 0 } }], a successful response that
    reports no payment. *)
Definition zero_total : value :=
  VObj [("pagination", VObj [("total_items", VNum (Fin 0))])].

(** A fetcher that has issued no fetch yet; records are numbered. *)
Definition idle : Fetcher.State nat :=
  {| Fetcher.issued := fun _ => 0%nat;
     Fetcher.visible :=
       fun _ => {| Fetcher.records := []; Fetcher.totalItems := 0 |} |}.

Definition resultA : Fetcher.Page nat :=
  {| Fetcher.records := [1%nat; 2%nat]; Fetcher.totalItems := 2 |}.

Definition resultB : Fetcher.Page nat :=
  {| Fetcher.records := [3%nat]; Fetcher.totalItems := 1 |}.

(** A table that holds a page number and goes back to page 1 on every
    render, whatever the props. *)
Definition resetting_table : PaymentsView.DataTable unit :=
  {| PaymentsView.TableState := Z;
     PaymentsView.render := fun _ _ => 1;
     PaymentsView.currentPage := fun page => page |}.

(** The payments page around that table, with the table on page [n]. *)
Definition app_with (st : PaymentsPage.PageState unit) (n : Z)
  : @PaymentsView.App unit resetting_table :=
  @PaymentsView.Build_App unit resetting_table st n.

(** The table moves to page [n]. *)
Definition go_to (n : Z) : @PaymentsView.AppEvent unit resetting_table :=
  @PaymentsView.InTable unit resetting_table n.

(** An event of the page around that table. *)
Definition on_page (ev : PaymentsPage.Event unit)
  : @PaymentsView.AppEvent unit resetting_table :=
  @PaymentsView.OnPage unit resetting_table ev.

(** ** Facts about the helpers *)

Lemma Math_ceil_div_bounds (a b : Z) :
  0 < b -> b * (Math_ceil_div a b - 1) < a <= b * Math_ceil_div a b.
Proof.
  intros Hb. unfold Math_ceil_div.
  pose proof (Z.mul_div_le (- a) b Hb) as Hle.
  pose proof (Z.mul_succ_div_gt (- a) b Hb) as Hgt.
  nia.
Qed.

Lemma Math_ceil_div_pos (a b : Z) : 0 < b -> 1 <= a -> 1 <= Math_ceil_div a b.
Proof.
  intros Hb Ha. pose proof (Math_ceil_div_bounds a b Hb) as [_ Hup]. nia.
Qed.

Lemma Math_ceil_div_0 (b : Z) : Math_ceil_div 0 b = 0.
Proof. unfold Math_ceil_div. change (- 0) with 0. now rewrite Zdiv_0_l. Qed.

Lemma run_from_length (n : nat) : forall start, List.length (run_from start n) = n.
Proof. induction n as [|n IH]; intros start; simpl; [|rewrite IH]; reflexivity. Qed.

Lemma run_from_In (n : nat) :
  forall start x, In x (run_from start n) <-> start <= x < start + Z.of_nat n.
Proof.
  induction n as [|n IH]; intros start x; simpl.
  - lia.
  - rewrite IH. lia.
Qed.

Lemma for_push_run (n : nat) :
  forall i end_ pages,
    Z.of_nat n = end_ - i + 1 ->
    EventsPage.for_push n i end_ pages = pages ++ run_from i n.
Proof.
  induction n as [|n IH]; intros i end_ pages Hn; simpl.
  - now rewrite app_nil_r.
  - assert (Hle : (i <=? end_) = true) by (apply Z.leb_le; lia).
    rewrite Hle, IH by lia. now rewrite <- app_assoc.
Qed.

(** The loop stops by its own test: fuel beyond the number of pages to
    push is never used. *)
Lemma for_push_spare_fuel (n spare : nat) :
  forall i end_ pages,
    Z.of_nat n = Z.max 0 (end_ - i + 1) ->
    EventsPage.for_push (n + spare) i end_ pages = EventsPage.for_push n i end_ pages.
Proof.
  induction n as [|n IH]; intros i end_ pages Hn.
  - destruct spare as [|spare]; simpl; [reflexivity|].
    assert (Hgt : (i <=? end_) = false) by (apply Z.leb_gt; lia).
    now rewrite Hgt.
  - simpl. destruct (Z.leb_spec i end_) as [Hle | Hgt]; [|reflexivity].
    apply IH. lia.
Qed.

Lemma half_bounds (m : Z) : 1 <= m -> 0 <= m / 2 < m.
Proof.
  intros Hm.
  pose proof (Z.div_pos m 2 ltac:(lia) ltac:(lia)).
  pose proof (Z.mul_div_le m 2 ltac:(lia)).
  lia.
Qed.

(** The window of [getPaginationNumbers] in closed form: a run of
    [min maxVisible totalPages] pages that starts as close to
    [current - floor(maxVisible/2)] as the two ends allow. *)
Lemma getPaginationNumbersWith_run (maxVisible totalPages current : Z) :
  1 <= totalPages -> 1 <= maxVisible ->
  EventsPage.getPaginationNumbersWith maxVisible totalPages current =
  run_from
    (Z.max 1 (Z.min (current - maxVisible / 2) (totalPages - maxVisible + 1)))
    (Z.to_nat (Z.min maxVisible totalPages)).
Proof.
  intros Htp Hmv.
  unfold EventsPage.getPaginationNumbersWith, Math_floor_div.
  set (h := maxVisible / 2).
  set (start0 := Z.max 1 (current - h)).
  set (end_ := Z.min totalPages (start0 + maxVisible - 1)).
  destruct (Z.ltb_spec (end_ - start0 + 1) maxVisible) as [Hlt | Hge].
  - rewrite (for_push_run _ _ end_) by (subst end_ start0; lia).
    simpl. f_equal; subst end_ start0; lia.
  - rewrite (for_push_run _ _ end_) by (subst end_ start0; lia).
    simpl. f_equal; subst end_ start0; lia.
Qed.

Lemma Z_mem_In (x : Z) (l : list Z) : EventsPage.Z_mem x l = true <-> In x l.
Proof.
  unfold EventsPage.Z_mem. rewrite existsb_exists. split.
  - intros [y [Hy Heq]]. apply Z.eqb_eq in Heq. now subst.
  - intros Hin. exists x. split; [assumption | apply Z.eqb_refl].
Qed.

Lemma goToPageItems_In (totalPages v : Z) :
  In v (EventsPage.goToPageItems totalPages) -> 1 <= v <= totalPages.
Proof.
  unfold EventsPage.goToPageItems, Array_from. rewrite in_map_iff.
  intros [i [Hv Hi]]. apply in_seq in Hi. lia.
Qed.

Lemma getPaginationNumbers_In (totalPages current p : Z) :
  1 <= totalPages ->
  In p (EventsPage.getPaginationNumbers totalPages current) ->
  1 <= p <= totalPages.
Proof.
  intros Htp. unfold EventsPage.getPaginationNumbers, EventsPage.maxVisible.
  rewrite getPaginationNumbersWith_run by lia.
  rewrite run_from_In. lia.
Qed.

(** On the events page the current page stays within [1, totalPages]
    whatever the user clicks, as long as there is at least one page. *)
Lemma currentPage_in_range (totalPages : Z) (evs : list EventsPage.UiEvent) :
  1 <= totalPages ->
  forall currentPage,
    1 <= currentPage <= totalPages ->
    1 <= EventsPage.run totalPages evs currentPage <= totalPages.
Proof.
  intros Htp. unfold EventsPage.run.
  induction evs as [|ev evs IH]; intros cur Hcur; simpl; [assumption|].
  apply IH. unfold EventsPage.step.
  destruct (EventsPage.rendered totalPages cur ev) eqn:Hr; [|assumption].
  destruct ev as [p | v]; simpl in Hr; apply Z_mem_In in Hr.
  - now apply getPaginationNumbers_In in Hr.
  - now apply goToPageItems_In in Hr.
Qed.

Lemma getPaginationNumbers_no_pages (current : Z) :
  EventsPage.getPaginationNumbers 0 current = [].
Proof.
  unfold EventsPage.getPaginationNumbers, EventsPage.getPaginationNumbersWith,
    EventsPage.maxVisible, Math_floor_div.
  change (5 / 2) with 2.
  set (start0 := Z.max 1 (current - 2)).
  assert (Hend : Z.min 0 (start0 + 5 - 1) = 0) by (subst start0; lia).
  rewrite Hend.
  assert (Hlt : (0 - start0 + 1 <? 5) = true) by (apply Z.ltb_lt; subst start0; lia).
  rewrite Hlt. reflexivity.
Qed.

Lemma no_control_without_pages (current : Z) (ev : EventsPage.UiEvent) :
  EventsPage.rendered 0 current ev = false.
Proof.
  destruct ev as [p | v]; simpl.
  - now rewrite getPaginationNumbers_no_pages.
  - reflexivity.
Qed.

Lemma run_without_pages (evs : list EventsPage.UiEvent) :
  forall current, EventsPage.run 0 evs current = current.
Proof.
  unfold EventsPage.run.
  induction evs as [|ev evs IH]; intros current; simpl; [reflexivity|].
  unfold EventsPage.step at 2. rewrite no_control_without_pages. apply IH.
Qed.

Lemma slice_nil {A : Type} (s e : Z) : slice (@nil A) s e = [].
Proof. unfold slice. now rewrite skipn_nil, firstn_nil. Qed.

(** ** Pagination: the claims *)

(** C2, as stated, fails on an empty collection: the page count of the
    events page is [Math.ceil(0 / 1) = 0], which is neither
    [max(1, ceil(0/1)) = 1] nor at least 1, and clamping into
    [[1, 0]] cannot succeed. *)
Lemma C2_empty_collection_has_no_page :
  EventsPage.totalPages 0 1 <> computePages_spec 0 1
  /\ ~ (1 <= EventsPage.totalPages 0 1)
  /\ ~ (1 <= clampPage 1 (EventsPage.totalPages 0 1) <= EventsPage.totalPages 0 1).
Proof. vm_compute. repeat split; intros H; try discriminate; destruct H; auto; try discriminate. Qed.

(** C2 (amended): for [totalItems >= 1] and [pageSize >= 1] the page count
    [Math.ceil(totalItems / pageSize)] of the source equals
    [max(1, ceil(totalItems/pageSize))] and is at least 1, and [clampPage]
    returns a page within [[1, totalPages]]; for an empty collection the
    page count is 0. *)
Theorem C2_totalPages_of_nonempty (totalItems pageSize requested : Z) :
  1 <= totalItems -> 1 <= pageSize ->
  EventsPage.totalPages totalItems pageSize = computePages_spec totalItems pageSize
  /\ 1 <= EventsPage.totalPages totalItems pageSize
  /\ 1 <= clampPage requested (EventsPage.totalPages totalItems pageSize)
       <= EventsPage.totalPages totalItems pageSize
  /\ EventsPage.totalPages 0 pageSize = 0.
Proof.
  intros Hitems Hsize.
  unfold EventsPage.totalPages, computePages_spec, clampPage.
  pose proof (Math_ceil_div_pos totalItems pageSize ltac:(lia) Hitems) as Hpos.
  rewrite Math_ceil_div_0. repeat split; lia.
Qed.

Lemma C2_totalPages_of_nonempty_witness :
  EventsPage.totalPages 30 1 = computePages_spec 30 1
  /\ 1 <= EventsPage.totalPages 30 1
  /\ 1 <= clampPage 31 (EventsPage.totalPages 30 1) <= EventsPage.totalPages 30 1
  /\ EventsPage.totalPages 0 1 = 0.
Proof. apply (C2_totalPages_of_nonempty 30 1 31); lia. Defined.

(** C3, as stated, fails: with no items the events page has
    [totalPages = 0] and [getPaginationNumbers] returns the empty list,
    not [[1]]. *)
Lemma C3_empty_collection_window_is_empty :
  EventsPage.getPaginationNumbers (EventsPage.totalPages 0 1)
                                  EventsPage.initialPage <> [1].
Proof. vm_compute. discriminate. Qed.

(** C3 (amended): when the collection is empty, the page count is 0 and
    the pagination window is the empty list whatever the current page;
    no page control is rendered, so the current page keeps its initial
    value 1; and the record window is empty. *)
Theorem C3_empty_collection (A : Type) (itemsPerPage current : Z)
        (evs : list EventsPage.UiEvent) :
  1 <= itemsPerPage ->
  EventsPage.totalPages 0 itemsPerPage = 0
  /\ EventsPage.getPaginationNumbers (EventsPage.totalPages 0 itemsPerPage) current = []
  /\ EventsPage.run (EventsPage.totalPages 0 itemsPerPage) evs EventsPage.initialPage = 1
  /\ EventsPage.currentData (@nil A) current itemsPerPage = [].
Proof.
  intros _. unfold EventsPage.totalPages. rewrite Math_ceil_div_0.
  split; [reflexivity|]. split; [apply getPaginationNumbers_no_pages|].
  split; [|apply slice_nil].
  apply run_without_pages.
Qed.

Lemma C3_empty_collection_witness :
  EventsPage.totalPages 0 1 = 0
  /\ EventsPage.getPaginationNumbers (EventsPage.totalPages 0 1) 1 = []
  /\ EventsPage.run (EventsPage.totalPages 0 1)
       [EventsPage.ClickPage 1; EventsPage.SelectPage 2] EventsPage.initialPage = 1
  /\ EventsPage.currentData (@nil nat) 1 1 = [].
Proof.
  apply (C3_empty_collection nat 1 1
           [EventsPage.ClickPage 1; EventsPage.SelectPage 2]); lia.
Defined.

(** C8: for [totalPages >= 1], [current] in [[1, totalPages]] and
    [maxVisible >= 1], the window of [getPaginationNumbers] is a contiguous
    run of [min maxVisible totalPages] pages, all within [[1, totalPages]],
    never empty, containing [current]; it starts [floor(maxVisible/2)]
    pages before [current] when that fits, at page 1 when [current] is too
    close to the first page, and ends at [totalPages] when [current] is too
    close to the last one. *)
Theorem C8_window (totalPages current maxVisible : Z) :
  1 <= totalPages -> 1 <= current <= totalPages -> 1 <= maxVisible ->
  let window := EventsPage.getPaginationNumbersWith maxVisible totalPages current in
  let size := Z.min maxVisible totalPages in
  exists start : Z,
    window = run_from start (Z.to_nat size)
    /\ Z.of_nat (List.length window) = size
    /\ 1 <= start /\ start + size - 1 <= totalPages
    /\ (forall p, In p window -> 1 <= p <= totalPages)
    /\ In current window
    /\ window <> []
    /\ (1 <= current - maxVisible / 2 ->
        current - maxVisible / 2 + maxVisible - 1 <= totalPages ->
        start = current - maxVisible / 2)
    /\ (current - maxVisible / 2 < 1 -> start = 1)
    /\ (totalPages < current - maxVisible / 2 + maxVisible - 1 ->
        start + size - 1 = totalPages).
Proof.
  intros Htp Hcur Hmv window size.
  pose proof (half_bounds maxVisible Hmv) as Hh.
  exists (Z.max 1 (Z.min (current - maxVisible / 2) (totalPages - maxVisible + 1))).
  assert (Hw : window =
               run_from (Z.max 1 (Z.min (current - maxVisible / 2)
                                        (totalPages - maxVisible + 1)))
                        (Z.to_nat size))
    by (apply getPaginationNumbersWith_run; assumption).
  split; [exact Hw|]. rewrite Hw.
  split; [rewrite run_from_length; subst size; lia|].
  split; [lia|]. split; [subst size; lia|].
  split; [intros p Hp; apply run_from_In in Hp; subst size; lia|].
  split; [apply run_from_In; subst size; lia|].
  split.
  - intros Hnil. apply (f_equal (@List.length Z)) in Hnil.
    rewrite run_from_length in Hnil. simpl in Hnil. subst size. lia.
  - subst size. repeat split; lia.
Qed.

Lemma C8_window_witness :
  exists start : Z,
    EventsPage.getPaginationNumbers 30 15 = run_from start 5
    /\ In 15 (EventsPage.getPaginationNumbers 30 15)
    /\ start = 13.
Proof.
  destruct (C8_window 30 15 5 ltac:(lia) ltac:(lia) ltac:(lia))
    as [start [Hw [_ [_ [_ [_ [Hin [_ [Hc _]]]]]]]]].
  exists start. split; [exact Hw|]. split; [exact Hin|].
  apply Hc; vm_compute; discriminate.
Defined.

(** ** The payments page: the total read from a response *)

Lemma or_zero_Fin (z : Z) : or_zero (Fin z) = Fin z.
Proof. destruct z; reflexivity. Qed.

Lemma coalesce_nullish (a b : value) : is_nullish a = true -> coalesce a b = b.
Proof. destruct a; simpl; intros Hn; try discriminate; reflexivity. Qed.

Lemma coalesce_present (a b : value) : is_nullish a = false -> coalesce a b = a.
Proof. destruct a; simpl; intros Hn; try discriminate; reflexivity. Qed.

(** C9: the count a count effect stores is the envelope's explicit total
    when that is a number; the length of the returned list when the
    explicit total is absent; and 0 when both are absent or when what was
    read is not numeric. *)
Theorem C9_total_of_envelope {B : JsBuiltins} (data : value) :
  (forall n : Z,
      PaymentsPage.total_items data = VNum (Fin n) ->
      PaymentsPage.settled_count (Json data) = Fin n)
  /\ (forall items : list value,
         is_nullish (PaymentsPage.total_items data) = true ->
         opt_get (opt_get data "data") "items" = VArr items ->
         PaymentsPage.settled_count (Json data) = Fin (Z.of_nat (List.length items)))
  /\ (is_nullish (PaymentsPage.total_items data) = true ->
      is_nullish (PaymentsPage.items_length data) = true ->
      PaymentsPage.settled_count (Json data) = Fin 0)
  /\ (Number (PaymentsPage.count data) = NaN ->
      PaymentsPage.settled_count (Json data) = Fin 0).
Proof.
  unfold PaymentsPage.settled_count, PaymentsPage.count. repeat split.
  - intros n Hn. rewrite Hn. simpl. apply or_zero_Fin.
  - intros items Hnull Hitems. rewrite (coalesce_nullish _ _ Hnull).
    unfold PaymentsPage.items_length. rewrite Hitems. simpl. apply or_zero_Fin.
  - intros Hnull1 Hnull2.
    rewrite (coalesce_nullish _ _ Hnull1), (coalesce_nullish _ _ Hnull2).
    reflexivity.
  - intros Hnan. rewrite Hnan. reflexivity.
Qed.

Lemma C9_total_of_envelope_witness :
  @PaymentsPage.settled_count plain_builtins (Json (envelope 42 [VNull])) = Fin 42
  /\ @PaymentsPage.settled_count plain_builtins
       (Json (envelope_without_total [VNull; VNull; VNull])) = Fin 3
  /\ @PaymentsPage.settled_count plain_builtins (Json (VObj [])) = Fin 0
  /\ @PaymentsPage.settled_count plain_builtins
       (Json (VObj [("pagination", VObj [("total_items", VStr "n/a")])])) = Fin 0.
Proof.
  split; [|split; [|split]].
  - apply (@C9_total_of_envelope plain_builtins (envelope 42 [VNull])).
    reflexivity.
  - apply (proj1 (proj2 (@C9_total_of_envelope plain_builtins
                           (envelope_without_total [VNull; VNull; VNull])))
             [VNull; VNull; VNull]); reflexivity.
  - apply (proj1 (proj2 (proj2 (@C9_total_of_envelope plain_builtins (VObj [])))));
      reflexivity.
  - apply (proj2 (proj2 (proj2 (@C9_total_of_envelope plain_builtins
             (VObj [("pagination", VObj [("total_items", VStr "n/a")])])))));
      reflexivity.
Defined.

(** ** The payments page: applying filters *)

Lemma handleApplyFilters_filters {Payment : Type}
      (applied : PaymentsPage.PaymentFilters)
      (st : PaymentsPage.PageState Payment) :
  PaymentsPage.filters (PaymentsPage.handleApplyFilters applied st) = applied.
Proof.
  unfold PaymentsPage.handleApplyFilters.
  now destruct (PaymentsPage.paymentState applied).
Qed.

(** C10: [handleApplyFilters] replaces [filters] by the applied object
    whatever the previous criteria were, sets [selectedState] to
    [applied.paymentState] when that field is set and leaves it alone
    otherwise, and changes neither the three counts nor the payments. *)
Theorem C10_handleApplyFilters_frame {Payment : Type}
        (applied : PaymentsPage.PaymentFilters)
        (st : PaymentsPage.PageState Payment) :
  let st' := PaymentsPage.handleApplyFilters applied st in
  PaymentsPage.filters st' = applied
  /\ PaymentsPage.selectedState st' =
       match PaymentsPage.paymentState applied with
       | Some s => PaymentsPage.PaymentState_string s
       | None => PaymentsPage.selectedState st
       end
  /\ PaymentsPage.allCount st' = PaymentsPage.allCount st
  /\ PaymentsPage.incomingCount st' = PaymentsPage.incomingCount st
  /\ PaymentsPage.outgoingCount st' = PaymentsPage.outgoingCount st
  /\ PaymentsPage.payments st' = PaymentsPage.payments st.
Proof.
  unfold PaymentsPage.handleApplyFilters.
  destruct (PaymentsPage.paymentState applied) as [s|]; simpl; repeat split.
Qed.

Lemma effects_after_mount : PaymentsPage.effects false = [].
Proof. reflexivity. Qed.

Lemma effects_on_mount :
  PaymentsPage.effects true =
  [PaymentsPage.incoming_url; PaymentsPage.all_url; PaymentsPage.outgoing_url].
Proof. reflexivity. Qed.

(** C5, as stated, fails: criteria with a negative threshold, and criteria
    whose range starts after it ends, are invalid by the rule of the
    specification, yet [handleApplyFilters] stores them in place of the
    previous criteria. *)
Lemma C5_invalid_criteria_replace_previous :
  invalid_criteria_spec negative_threshold = true
  /\ invalid_criteria_spec reversed_range = true
  /\ PaymentsPage.filters
       (PaymentsPage.handleApplyFilters negative_threshold
          (@PaymentsPage.initial unit)) <> PaymentsPage.filters (@PaymentsPage.initial unit)
  /\ PaymentsPage.filters
       (PaymentsPage.handleApplyFilters reversed_range
          (@PaymentsPage.initial unit)) <> PaymentsPage.filters (@PaymentsPage.initial unit).
Proof. repeat split; try reflexivity; simpl; discriminate. Qed.

(** C5 (amended): [handleApplyFilters] validates nothing and has no error
    result: criteria that the rule of the specification rejects are stored
    like any other, replacing the previous criteria; the handler sends no
    request. *)
Theorem C5_invalid_criteria_are_accepted {Payment : Type} {B : JsBuiltins}
        (applied : PaymentsPage.PaymentFilters)
        (rt : PaymentsPage.Runtime Payment) :
  invalid_criteria_spec applied = true ->
  PaymentsPage.mounted rt = true ->
  let rt' := PaymentsPage.step rt (PaymentsPage.ApplyFilters applied) in
  PaymentsPage.filters (PaymentsPage.state rt') = applied
  /\ PaymentsPage.requests rt' = PaymentsPage.requests rt.
Proof.
  intros _ Hm. simpl. rewrite Hm. simpl. rewrite app_nil_r. split; [|reflexivity].
  apply handleApplyFilters_filters.
Qed.

Lemma C5_invalid_criteria_are_accepted_witness :
  let rt := @PaymentsPage.step unit plain_builtins
              PaymentsPage.start PaymentsPage.Mount in
  let rt' := @PaymentsPage.step unit plain_builtins rt
               (PaymentsPage.ApplyFilters reversed_range) in
  PaymentsPage.filters (PaymentsPage.state rt') = reversed_range
  /\ PaymentsPage.requests rt' = PaymentsPage.requests rt.
Proof.
  intros rt.
  apply (@C5_invalid_criteria_are_accepted unit plain_builtins reversed_range rt);
    reflexivity.
Defined.

(** ** The payments page: the three counts *)

Lemma settled_count_rejected {B : JsBuiltins} :
  PaymentsPage.settled_count FetchRejected = Fin 0
  /\ PaymentsPage.settled_count JsonRejected = Fin 0.
Proof. split; reflexivity. Qed.

(** C6, as stated, fails on the marking: the page keeps no stale or error
    mark.  Nothing computed from its state can tell a failed count fetch
    from one that succeeded with a total of 0, because both leave the same
    state. *)
Lemma C6_failed_fetch_is_not_marked :
  ~ exists marked : PaymentsPage.PageState unit -> bool,
      marked (@PaymentsPage.fetchIncomingCount unit plain_builtins
                FetchRejected PaymentsPage.initial) = true
      /\ marked (@PaymentsPage.fetchIncomingCount unit plain_builtins
                   (Json zero_total) PaymentsPage.initial) = false.
Proof.
  intros [marked [Hfailed Hok]].
  change (@PaymentsPage.fetchIncomingCount unit plain_builtins
            (Json zero_total) PaymentsPage.initial)
    with (@PaymentsPage.fetchIncomingCount unit plain_builtins
            FetchRejected PaymentsPage.initial) in Hok.
  congruence.
Qed.

(** C6 (amended): whatever the three count fetches produce and in
    whatever order they settle, each count ends at the value of its own
    fetch, 0 for a fetch that failed, so a failure in one category leaves
    the other two at their fetched values; the payments, the filters and
    the selected state are not touched. *)
Theorem C6_counts_settle_independently {Payment : Type} {B : JsBuiltins}
        (oi oa oo : Outcome) (evs : list (PaymentsPage.Event Payment))
        (rt : PaymentsPage.Runtime Payment) :
  Permutation evs [PaymentsPage.IncomingCountSettled oi;
                   PaymentsPage.AllCountSettled oa;
                   PaymentsPage.OutgoingCountSettled oo] ->
  let st := PaymentsPage.state rt in
  let st' := PaymentsPage.state (PaymentsPage.run evs rt) in
  PaymentsPage.incomingCount st' = PaymentsPage.settled_count oi
  /\ PaymentsPage.allCount st' = PaymentsPage.settled_count oa
  /\ PaymentsPage.outgoingCount st' = PaymentsPage.settled_count oo
  /\ PaymentsPage.settled_count FetchRejected = Fin 0
  /\ PaymentsPage.settled_count JsonRejected = Fin 0
  /\ PaymentsPage.payments st' = PaymentsPage.payments st
  /\ PaymentsPage.filters st' = PaymentsPage.filters st
  /\ PaymentsPage.selectedState st' = PaymentsPage.selectedState st.
Proof.
  intros Hperm.
  pose proof (Permutation_length Hperm) as Hlen.
  destruct evs as [|x [|y [|z [|w evs]]]]; try discriminate Hlen.
  assert (Hi : In (PaymentsPage.IncomingCountSettled oi) [x; y; z])
    by (apply (Permutation_in _ (Permutation_sym Hperm)); simpl; auto).
  assert (Ha : In (PaymentsPage.AllCountSettled oa) [x; y; z])
    by (apply (Permutation_in _ (Permutation_sym Hperm)); simpl; auto).
  assert (Ho : In (PaymentsPage.OutgoingCountSettled oo) [x; y; z])
    by (apply (Permutation_in _ (Permutation_sym Hperm)); simpl; auto).
  clear Hperm Hlen. simpl in Hi, Ha, Ho.
  destruct Hi as [Hi | [Hi | [Hi | []]]];
    destruct Ha as [Ha | [Ha | [Ha | []]]];
    destruct Ho as [Ho | [Ho | [Ho | []]]];
    subst; try discriminate; simpl; repeat split.
Qed.

Lemma C6_counts_settle_independently_witness :
  let rt' := @PaymentsPage.run unit plain_builtins
               [PaymentsPage.OutgoingCountSettled (Json (envelope 7 []));
                PaymentsPage.IncomingCountSettled FetchRejected;
                PaymentsPage.AllCountSettled (Json (envelope 12 []))]
               PaymentsPage.start in
  PaymentsPage.incomingCount (PaymentsPage.state rt') = Fin 0
  /\ PaymentsPage.allCount (PaymentsPage.state rt') = Fin 12
  /\ PaymentsPage.outgoingCount (PaymentsPage.state rt') = Fin 7
  /\ PaymentsPage.payments (PaymentsPage.state rt') = [].
Proof.
  pose proof (@C6_counts_settle_independently unit plain_builtins
                FetchRejected (Json (envelope 12 [])) (Json (envelope 7 []))
                [PaymentsPage.OutgoingCountSettled (Json (envelope 7 []));
                 PaymentsPage.IncomingCountSettled FetchRejected;
                 PaymentsPage.AllCountSettled (Json (envelope 12 []))]
                PaymentsPage.start) as Hthm.
  assert (Hperm : Permutation
            [@PaymentsPage.OutgoingCountSettled unit (Json (envelope 7 []));
             PaymentsPage.IncomingCountSettled FetchRejected;
             PaymentsPage.AllCountSettled (Json (envelope 12 []))]
            [PaymentsPage.IncomingCountSettled FetchRejected;
             PaymentsPage.AllCountSettled (Json (envelope 12 []));
             PaymentsPage.OutgoingCountSettled (Json (envelope 7 []))]).
  { apply Permutation_sym, Permutation_cons_app with (l1 := [_]) (l2 := [_]).
    apply Permutation_cons_app with (l1 := [_]) (l2 := []).
    apply Permutation_refl. }
  destruct (Hthm Hperm) as [Hi [Ha [Ho [_ [_ [Hp _]]]]]].
  intros rt'. repeat split; assumption.
Defined.

(** Once the page is mounted no event sends a request. *)
Lemma requests_after_mount {Payment : Type} {B : JsBuiltins}
      (evs : list (PaymentsPage.Event Payment)) :
  forall rt : PaymentsPage.Runtime Payment,
    PaymentsPage.mounted rt = true ->
    PaymentsPage.requests (PaymentsPage.run evs rt) = PaymentsPage.requests rt.
Proof.
  unfold PaymentsPage.run.
  induction evs as [|ev evs IH]; intros rt Hm; simpl; [reflexivity|].
  rewrite IH by reflexivity. simpl. rewrite Hm. simpl. apply app_nil_r.
Qed.

(** The page with counts asks for each total once, when it mounts: after
    any sequence of events, filter changes included, the requests sent are
    the three count requests. *)
Lemma counts_requested_once {Payment : Type} {B : JsBuiltins}
      (ev : PaymentsPage.Event Payment) (evs : list (PaymentsPage.Event Payment)) :
  PaymentsPage.requests (PaymentsPage.run (ev :: evs) PaymentsPage.start) =
  [PaymentsPage.incoming_url; PaymentsPage.all_url; PaymentsPage.outgoing_url].
Proof.
  unfold PaymentsPage.run. simpl fold_left.
  change (fold_left PaymentsPage.step evs ?rt) with (PaymentsPage.run evs rt).
  rewrite requests_after_mount by reflexivity. reflexivity.
Qed.

(** On the page with counts a badge changes only when its own count fetch
    settles: applying filters, receiving payments and clicking a type
    button leave every badge as it was. *)
Lemma badges_ignore_filters_and_records {Payment : Type} {B : JsBuiltins}
      (key : string) (ev : PaymentsPage.Event Payment)
      (st : PaymentsPage.PageState Payment) :
  match ev with
  | PaymentsPage.IncomingCountSettled _
  | PaymentsPage.AllCountSettled _
  | PaymentsPage.OutgoingCountSettled _ => True
  | _ => PaymentsPage.badge key (PaymentsPage.handle ev st) = PaymentsPage.badge key st
  end.
Proof.
  destruct ev as [| | | | applied | |]; simpl; auto.
  unfold PaymentsPage.handleApplyFilters.
  now destruct (PaymentsPage.paymentState applied).
Qed.

(** C1 on the page with type tabs: the badge of "all" is the number of
    payments currently held for display, so it follows every change of the
    displayed records, and the other badges are always 0; no total is
    fetched.  With two payments displayed the badges read 2, 0 and 0. *)
Theorem C1_tabs_page_badge_counts_displayed_records :
  (forall (Payment : Type) (ps : list Payment)
          (st : PaymentsTabsPage.PageState Payment),
      PaymentsTabsPage.badge "all" (PaymentsTabsPage.setPayments ps st)
      = Z.of_nat (List.length ps)
      /\ PaymentsTabsPage.badge "incoming" (PaymentsTabsPage.setPayments ps st) = 0
      /\ PaymentsTabsPage.badge "outgoing" (PaymentsTabsPage.setPayments ps st) = 0)
  /\ PaymentsTabsPage.badge "all"
       (PaymentsTabsPage.setPayments [tt; tt] PaymentsTabsPage.initial) = 2
  /\ PaymentsTabsPage.badge "all"
       (PaymentsTabsPage.setPayments [tt] PaymentsTabsPage.initial) = 1.
Proof. repeat split. Qed.

(** ** The collection fetcher *)

Lemma Direction_eqb_refl (t : Fetcher.Direction) :
  Fetcher.Direction_eqb t t = true.
Proof. now destruct t. Qed.

Lemma Direction_eqb_eq (a b : Fetcher.Direction) :
  Fetcher.Direction_eqb a b = true -> a = b.
Proof. destruct a, b; simpl; intros Heq; try discriminate; reflexivity. Qed.

Lemma update_same {A : Type} (f : Fetcher.Direction -> A)
      (t : Fetcher.Direction) (v : A) :
  Fetcher.update f t v t = v.
Proof. unfold Fetcher.update. now rewrite Direction_eqb_refl. Qed.

Lemma update_other {A : Type} (f : Fetcher.Direction -> A)
      (t t' : Fetcher.Direction) (v : A) :
  Fetcher.Direction_eqb t' t = false -> Fetcher.update f t v t' = f t'.
Proof. unfold Fetcher.update. now intros ->. Qed.

(** A fetch takes the successor of the latest sequence number of its tab. *)
Lemma fetch_issues_next {R : Type} (s : Fetcher.State R) (t : Fetcher.Direction) :
  Fetcher.issued (Fetcher.fetch t s) t = S (Fetcher.issued s t).
Proof. simpl. apply update_same. Qed.

Lemma resolve_issued {R : Type} (s : Fetcher.State R) (t : Fetcher.Direction)
      (token : nat) (r : Fetcher.Page R) :
  Fetcher.issued (Fetcher.resolve t token r s) = Fetcher.issued s.
Proof.
  unfold Fetcher.resolve. now destruct (Nat.eqb token (Fetcher.issued s t)).
Qed.

(** A response whose sequence number is not the latest of its tab changes
    nothing. *)
Lemma stale_response_is_noop {R : Type} (s : Fetcher.State R)
      (t : Fetcher.Direction) (token : nat) (r : Fetcher.Page R) :
  token <> Fetcher.issued s t ->
  Fetcher.resolve t token r s = s.
Proof.
  intros Hne. unfold Fetcher.resolve.
  apply Nat.eqb_neq in Hne. now rewrite Hne.
Qed.

Lemma latest_response_is_shown {R : Type} (s : Fetcher.State R)
      (t : Fetcher.Direction) (r : Fetcher.Page R) :
  Fetcher.visible (Fetcher.resolve t (Fetcher.issued s t) r s) t = r.
Proof.
  unfold Fetcher.resolve. rewrite Nat.eqb_refl. simpl. apply update_same.
Qed.

(** Sequence numbers never go down, whatever happens. *)
Lemma issued_monotone_step {R : Type} (s : Fetcher.State R)
      (ev : Fetcher.Event R) (t : Fetcher.Direction) :
  (Fetcher.issued s t <= Fetcher.issued (Fetcher.step s ev) t)%nat.
Proof.
  destruct ev as [t' | t' token r]; simpl.
  - unfold Fetcher.update.
    destruct (Fetcher.Direction_eqb t t') eqn:Heq; [|lia].
    apply Direction_eqb_eq in Heq. subst. lia.
  - rewrite resolve_issued. lia.
Qed.

Lemma issued_monotone {R : Type} (evs : list (Fetcher.Event R))
      (t : Fetcher.Direction) :
  forall s : Fetcher.State R,
    (Fetcher.issued s t <= Fetcher.issued (Fetcher.run evs s) t)%nat.
Proof.
  unfold Fetcher.run.
  induction evs as [|ev evs IH]; intros s; simpl; [lia|].
  pose proof (issued_monotone_step s ev t). pose proof (IH (Fetcher.step s ev)).
  lia.
Qed.

(** While no fetch is issued on a tab, its latest sequence number stays,
    and while moreover no response carries that number, so does what the
    tab shows. *)
Lemma quiet_tab {R : Type} (t : Fetcher.Direction)
      (evs : list (Fetcher.Event R)) :
  forall s : Fetcher.State R,
    forallb (Fetcher.no_fetch_on t) evs = true ->
    Fetcher.issued (Fetcher.run evs s) t = Fetcher.issued s t
    /\ (forallb (Fetcher.no_response_to t (Fetcher.issued s t)) evs = true ->
        Fetcher.visible (Fetcher.run evs s) t = Fetcher.visible s t).
Proof.
  unfold Fetcher.run.
  induction evs as [|ev evs IH]; simpl; intros s Hquiet; [split; reflexivity|].
  apply andb_true_iff in Hquiet. destruct Hquiet as [Hev Hquiet].
  destruct (IH (Fetcher.step s ev) Hquiet) as [Hi Hv].
  assert (Hstep : Fetcher.issued (Fetcher.step s ev) t = Fetcher.issued s t).
  { destruct ev as [t' | t' token r]; simpl in *.
    - apply update_other. apply negb_true_iff in Hev.
      destruct t, t'; simpl in *; congruence.
    - now rewrite resolve_issued. }
  rewrite Hi, Hstep. split; [reflexivity|].
  intros Hresp. apply andb_true_iff in Hresp. destruct Hresp as [Hr Hresp].
  rewrite Hstep in Hv. rewrite (Hv Hresp).
  destruct ev as [t' | t' token r]; simpl in *; [reflexivity|].
  unfold Fetcher.resolve.
  destruct (Nat.eqb token (Fetcher.issued s t')) eqn:Htok; [|reflexivity].
  simpl. apply update_other.
  destruct (Fetcher.Direction_eqb t t') eqn:Heq; [|reflexivity].
  apply Direction_eqb_eq in Heq. subst t'.
  rewrite Direction_eqb_refl, Htok in Hr. discriminate.
Qed.

(** C4: fetch A is issued on a tab, later fetch B on the same tab, B's
    response arrives, later A's; anything may happen in between: further
    fetches on any tab, responses fresh or stale.  B carries a larger
    sequence number than A, and A's response is discarded: the state after
    it is the state before it.  If no further fetch is issued on the tab
    between B's issue and B's response, B's response becomes the visible
    record set of the tab; and if, from then until A's response, no fetch
    is issued on the tab and no second response carries B's number, the tab
    still shows B's result after A's response. *)
Theorem C4_stale_response_is_discarded {R : Type}
        (s : Fetcher.State R) (t : Fetcher.Direction)
        (between1 between2 between3 : list (Fetcher.Event R))
        (rA rB : Fetcher.Page R) :
  let s1 := Fetcher.step s (Fetcher.Fetch t) in
  let tokenA := Fetcher.issued s1 t in
  let s2 := Fetcher.step (Fetcher.run between1 s1) (Fetcher.Fetch t) in
  let tokenB := Fetcher.issued s2 t in
  let s3 := Fetcher.step (Fetcher.run between2 s2)
                         (Fetcher.Resolve t tokenB rB) in
  let before := Fetcher.run between3 s3 in
  let s4 := Fetcher.step before (Fetcher.Resolve t tokenA rA) in
  (tokenA < tokenB)%nat
  /\ s4 = before
  /\ (forallb (Fetcher.no_fetch_on t) between2 = true ->
      Fetcher.visible s3 t = rB
      /\ (forallb (Fetcher.no_fetch_on t) between3 = true ->
          forallb (Fetcher.no_response_to t tokenB) between3 = true ->
          Fetcher.visible s4 t = rB)).
Proof.
  intros s1 tokenA s2 tokenB s3 before s4.
  assert (HAB : (tokenA < tokenB)%nat).
  { unfold tokenB, s2. simpl Fetcher.step. rewrite fetch_issues_next.
    pose proof (issued_monotone between1 t s1). fold tokenA in H. lia. }
  assert (Hs3 : Fetcher.issued s3 = Fetcher.issued (Fetcher.run between2 s2)).
  { unfold s3. simpl. apply resolve_issued. }
  assert (Hstale : s4 = before).
  { unfold s4. simpl. apply stale_response_is_noop.
    pose proof (issued_monotone between3 t s3) as H3.
    pose proof (issued_monotone between2 t s2) as H2.
    fold before in H3. rewrite Hs3 in H3. fold tokenB in H2. lia. }
  split; [exact HAB|]. split; [exact Hstale|].
  intros Hq2. destruct (quiet_tab t between2 s2 Hq2) as [Hi2 _].
  fold tokenB in Hi2.
  assert (Hv3 : Fetcher.visible s3 t = rB).
  { unfold s3. simpl. rewrite <- Hi2. apply latest_response_is_shown. }
  split; [exact Hv3|].
  intros Hq3 Hr3. rewrite Hstale. unfold before.
  destruct (quiet_tab t between3 s3 Hq3) as [_ Hv].
  rewrite Hs3, Hi2 in Hv. now rewrite (Hv Hr3).
Qed.

Lemma C4_stale_response_is_discarded_witness :
  Fetcher.visible
    (Fetcher.run
       [Fetcher.Fetch Fetcher.all;
        Fetcher.Fetch Fetcher.all;
        Fetcher.Fetch Fetcher.incoming;
        Fetcher.Resolve Fetcher.incoming 1 resultA;
        Fetcher.Fetch Fetcher.all;
        Fetcher.Fetch Fetcher.outgoing;
        Fetcher.Resolve Fetcher.all 2 resultA;
        Fetcher.Resolve Fetcher.all 3 resultB;
        Fetcher.Resolve Fetcher.all 2 resultA;
        Fetcher.Resolve Fetcher.all 1 resultA]
       idle)
    Fetcher.all = resultB.
Proof.
  exact (proj2 (proj2 (proj2
    (C4_stale_response_is_discarded idle Fetcher.all
       [Fetcher.Fetch Fetcher.all; Fetcher.Fetch Fetcher.incoming;
        Fetcher.Resolve Fetcher.incoming 1 resultA]
       [Fetcher.Fetch Fetcher.outgoing; Fetcher.Resolve Fetcher.all 2 resultA]
       [Fetcher.Resolve Fetcher.all 2 resultA]
       resultA resultB)) eq_refl) eq_refl eq_refl).
Defined.

(** ** The payments page and its table *)

Lemma table_events_keep_filters {Payment : Type} {B : JsBuiltins}
      {T : PaymentsView.DataTable Payment}
      (evs : list PaymentsView.AppEvent) :
  forallb PaymentsView.by_table evs = true ->
  forall a : PaymentsView.App,
    PaymentsPage.filters (PaymentsView.page (PaymentsView.app_run evs a))
    = PaymentsPage.filters (PaymentsView.page a)
    /\ PaymentsPage.selectedState (PaymentsView.page (PaymentsView.app_run evs a))
       = PaymentsPage.selectedState (PaymentsView.page a).
Proof.
  unfold PaymentsView.app_run.
  induction evs as [|e evs IH]; simpl; intros Hall a; [split; reflexivity|].
  apply andb_true_iff in Hall. destruct Hall as [He Hall].
  destruct (IH Hall (PaymentsView.app_step a e)) as [Hf Hs]. rewrite Hf, Hs.
  destruct e as [ev | next]; [|split; reflexivity].
  destruct ev; simpl in He; try discriminate. split; reflexivity.
Qed.




(** ** The events page: further properties *)

Lemma firstn_plus {A : Type} (a b : nat) :
  forall l : list A, firstn (a + b) l = firstn a l ++ firstn b (skipn a l).
Proof.
  induction a as [|a IH]; intros l; simpl; [reflexivity|].
  destruct l as [|x l]; simpl.
  - now rewrite firstn_nil.
  - now rewrite IH.
Qed.

(** With non-negative bounds [slice] is [firstn] after [skipn]. *)
Lemma slice_firstn_skipn {A : Type} (l : list A) (s e : Z) :
  0 <= s <= e ->
  slice l s e = firstn (Z.to_nat (e - s)) (skipn (Z.to_nat s) l).
Proof.
  intros Hse. unfold slice.
  assert (Hs : (s <? 0) = false) by (apply Z.ltb_ge; lia).
  assert (He : (e <? 0) = false) by (apply Z.ltb_ge; lia).
  rewrite Hs, He.
  destruct (Z.le_gt_cases (Z.of_nat (List.length l)) s) as [Hout | Hin].
  - rewrite !skipn_all2 by lia. now rewrite !firstn_nil.
  - replace (Z.min s (Z.of_nat (List.length l))) with s by lia.
    destruct (Z.le_gt_cases e (Z.of_nat (List.length l))) as [Hfit | Hcut].
    + now replace (Z.min e (Z.of_nat (List.length l))) with e by lia.
    + replace (Z.min e (Z.of_nat (List.length l)))
        with (Z.of_nat (List.length l)) by lia.
      rewrite !firstn_all2; [reflexivity | |]; rewrite length_skipn; lia.
Qed.

Lemma currentData_chunk {A : Type} (l : list A) (p c : Z) :
  1 <= p -> 1 <= c ->
  EventsPage.currentData l p c
  = firstn (Z.to_nat c) (skipn (Z.to_nat (p - 1) * Z.to_nat c)%nat l).
Proof.
  intros Hp Hc. unfold EventsPage.currentData, EventsPage.startIndex.
  rewrite slice_firstn_skipn by nia.
  f_equal; [f_equal; lia | f_equal; nia].
Qed.

Lemma currentData_length {A : Type} (l : list A) (p c : Z) :
  1 <= p -> 1 <= c ->
  Z.of_nat (List.length (EventsPage.currentData l p c))
  = Z.max 0 (Z.min c (Z.of_nat (List.length l) - (p - 1) * c)).
Proof.
  intros Hp Hc. rewrite currentData_chunk by assumption.
  rewrite length_firstn, length_skipn. nia.
Qed.

Lemma chunks_concat {A : Type} (l : list A) (c : nat) (k : nat) :
  List.concat (map (fun j => firstn c (skipn (j * c)%nat l)) (seq 0 k))
  = firstn (k * c)%nat l.
Proof.
  induction k as [|k IH]; [reflexivity|].
  rewrite seq_S, map_app, concat_app, IH. simpl.
  rewrite app_nil_r. replace (c + k * c)%nat with (k * c + c)%nat by lia.
  now rewrite firstn_plus.
Qed.

(** X1: the pages of the events table partition the data: laid end to end
    in the order of the "Go to page" select, the rows of all pages are
    exactly [endpointsData], each row once and in order. *)
Theorem X1_pages_partition_data {A : Type} (endpointsData : list A)
        (itemsPerPage : Z) :
  1 <= itemsPerPage ->
  List.concat (EventsPageView.all_pages endpointsData itemsPerPage) = endpointsData.
Proof.
  intros Hc. unfold EventsPageView.all_pages, EventsPage.goToPageItems, Array_from.
  set (n := Z.of_nat (List.length endpointsData)).
  set (tp := EventsPage.totalPages n itemsPerPage).
  rewrite map_map.
  rewrite (map_ext_in _ (fun j => firstn (Z.to_nat itemsPerPage)
                                    (skipn (j * Z.to_nat itemsPerPage)%nat endpointsData))).
  - rewrite chunks_concat. apply firstn_all2.
    pose proof (Math_ceil_div_bounds n itemsPerPage ltac:(lia)) as [_ Hup].
    fold (EventsPage.totalPages n itemsPerPage) in Hup. fold tp in Hup.
    subst n. nia.
  - intros j _. rewrite currentData_chunk by lia.
    do 3 f_equal. lia.
Qed.

Lemma X1_pages_partition_data_witness :
  List.concat (EventsPageView.all_pages [10; 20; 30; 40; 50] 2) = [10; 20; 30; 40; 50].
Proof. apply (X1_pages_partition_data [10; 20; 30; 40; 50] 2). lia. Defined.

(** X2: on the events page every page up to [totalPages] shows at least
    one row and at most [itemsPerPage], every page before the last shows
    exactly [itemsPerPage], and a page past [totalPages] shows none. *)
Theorem X2_page_sizes {A : Type} (endpointsData : list A)
        (itemsPerPage currentPage : Z) :
  1 <= itemsPerPage -> 1 <= currentPage ->
  let totalPages :=
    EventsPage.totalPages (Z.of_nat (List.length endpointsData)) itemsPerPage in
  let shown :=
    Z.of_nat (List.length
                (EventsPage.currentData endpointsData currentPage itemsPerPage)) in
  (currentPage <= totalPages -> 1 <= shown <= itemsPerPage)
  /\ (currentPage < totalPages -> shown = itemsPerPage)
  /\ (totalPages < currentPage -> shown = 0).
Proof.
  intros Hc Hp totalPages shown.
  assert (Hshown : shown = Z.max 0 (Z.min itemsPerPage
                     (Z.of_nat (List.length endpointsData)
                      - (currentPage - 1) * itemsPerPage)))
    by (apply currentData_length; assumption).
  pose proof (Math_ceil_div_bounds (Z.of_nat (List.length endpointsData))
                itemsPerPage ltac:(lia)) as [Hlo Hup].
  fold (EventsPage.totalPages (Z.of_nat (List.length endpointsData)) itemsPerPage)
    in Hlo, Hup.
  fold totalPages in Hlo, Hup.
  rewrite Hshown. repeat split; intros; nia.
Qed.

Lemma X2_page_sizes_witness :
  1 <= Z.of_nat (List.length (EventsPage.currentData [10; 20; 30; 40; 50] 3 2)) <= 2
  /\ Z.of_nat (List.length (EventsPage.currentData [10; 20; 30; 40; 50] 2 2)) = 2
  /\ Z.of_nat (List.length (EventsPage.currentData [10; 20; 30; 40; 50] 4 2)) = 0.
Proof.
  split; [|split].
  - apply (proj1 (X2_page_sizes [10; 20; 30; 40; 50] 2 3
                    ltac:(lia) ltac:(lia))).
    vm_compute. discriminate.
  - apply (proj1 (proj2 (X2_page_sizes [10; 20; 30; 40; 50] 2 2
                           ltac:(lia) ltac:(lia)))).
    vm_compute. reflexivity.
  - apply (proj2 (proj2 (X2_page_sizes [10; 20; 30; 40; 50] 2 4
                           ltac:(lia) ltac:(lia)))).
    vm_compute. reflexivity.
Defined.

(** X3: with at least one endpoint, whatever sequence of page buttons and
    select entries the user activates, the current page stays within
    [[1, totalPages]] and the table never shows an empty page. *)
Theorem X3_never_an_empty_page {A : Type} (endpointsData : list A)
        (itemsPerPage : Z) (evs : list EventsPage.UiEvent) :
  1 <= itemsPerPage -> endpointsData <> [] ->
  let totalPages :=
    EventsPage.totalPages (Z.of_nat (List.length endpointsData)) itemsPerPage in
  let currentPage := EventsPage.run totalPages evs EventsPage.initialPage in
  1 <= currentPage <= totalPages
  /\ EventsPage.currentData endpointsData currentPage itemsPerPage <> [].
Proof.
  intros Hc Hne totalPages currentPage.
  assert (Hlen : 1 <= Z.of_nat (List.length endpointsData))
    by (destruct endpointsData; [congruence | simpl; lia]).
  assert (Htp : 1 <= totalPages) by (apply Math_ceil_div_pos; lia).
  assert (Hcur : 1 <= currentPage <= totalPages).
  { apply currentPage_in_range; [assumption|].
    unfold EventsPage.initialPage. lia. }
  split; [exact Hcur|].
  intros Hnil. apply (f_equal (@List.length A)) in Hnil.
  pose proof (currentData_length endpointsData currentPage itemsPerPage
                ltac:(lia) Hc) as Hshown.
  rewrite Hnil in Hshown. simpl in Hshown.
  pose proof (Math_ceil_div_bounds (Z.of_nat (List.length endpointsData))
                itemsPerPage ltac:(lia)) as [Hlo _].
  fold (EventsPage.totalPages (Z.of_nat (List.length endpointsData)) itemsPerPage)
    in Hlo.
  fold totalPages in Hlo. nia.
Qed.

Lemma X3_never_an_empty_page_witness :
  let currentPage :=
    EventsPage.run (EventsPage.totalPages 5 2)
      [EventsPage.ClickPage 3; EventsPage.SelectPage 9; EventsPage.ClickPage 2]
      EventsPage.initialPage in
  1 <= currentPage <= EventsPage.totalPages 5 2
  /\ EventsPage.currentData [10; 20; 30; 40; 50] currentPage 2 <> [].
Proof.
  apply (X3_never_an_empty_page [10; 20; 30; 40; 50] 2
           [EventsPage.ClickPage 3; EventsPage.SelectPage 9; EventsPage.ClickPage 2]).
  - lia.
  - discriminate.
Defined.

Lemma run_from_NoDup (n : nat) : forall start, NoDup (run_from start n).
Proof.
  induction n as [|n IH]; intros start; simpl; constructor.
  - rewrite run_from_In. lia.
  - apply IH.
Qed.

Lemma filter_none {A : Type} (p : A -> bool) (l : list A) :
  (forall y, In y l -> p y = false) -> filter p l = [].
Proof.
  induction l as [|a l IH]; intros Hall; simpl; [reflexivity|].
  rewrite (Hall a) by now left. apply IH. intros y Hy. apply Hall. now right.
Qed.

Lemma run_from_count (n : nat) :
  forall start x,
    start <= x < start + Z.of_nat n ->
    List.length (filter (Z.eqb x) (run_from start n)) = 1%nat.
Proof.
  induction n as [|n IH]; intros start x Hx; simpl; [lia|].
  destruct (Z.eqb_spec x start) as [-> | Hne]; simpl.
  - f_equal. rewrite filter_none; [reflexivity|].
    intros y Hy. apply run_from_In in Hy. apply Z.eqb_neq. lia.
  - apply IH. lia.
Qed.

Lemma filter_map_swap {A B : Type} (f : A -> B) (p : B -> bool) (l : list A) :
  filter p (map f l) = map f (filter (fun a => p (f a)) l).
Proof.
  induction l as [|a l IH]; simpl; [reflexivity|].
  destruct (p (f a)); simpl; now rewrite IH.
Qed.

(** X4: on the events page with at least one page and the current page in
    range, the numbered buttons carry pairwise distinct React keys and
    exactly one of them, the one of the current page, has the "default"
    variant. *)
Theorem X4_one_button_highlighted (totalPages currentPage : Z) :
  1 <= totalPages -> 1 <= currentPage <= totalPages ->
  let buttons := EventsPageView.buttons totalPages currentPage in
  NoDup (map fst buttons)
  /\ filter (fun b => String.eqb (snd b) "default") buttons
     = [(currentPage, "default")].
Proof.
  intros Htp Hcur buttons. subst buttons. unfold EventsPageView.buttons.
  unfold EventsPage.getPaginationNumbers, EventsPage.maxVisible.
  rewrite getPaginationNumbersWith_run by lia.
  set (start := Z.max 1 (Z.min (currentPage - 5 / 2) (totalPages - 5 + 1))).
  set (n := Z.to_nat (Z.min 5 totalPages)).
  change (5 / 2) with 2 in start.
  split.
  - rewrite map_map. simpl. rewrite map_id. apply run_from_NoDup.
  - rewrite filter_map_swap. simpl.
    rewrite (filter_ext _ (Z.eqb currentPage)).
    + assert (Hrange : start <= currentPage < start + Z.of_nat n)
        by (subst start n; lia).
      pose proof (run_from_count n start currentPage Hrange) as Hone.
      destruct (filter (Z.eqb currentPage) (run_from start n)) as [|p [|q rest]] eqn:Hf;
        try discriminate Hone.
      assert (Hin : In p (filter (Z.eqb currentPage) (run_from start n)))
        by (rewrite Hf; now left).
      apply filter_In in Hin. destruct Hin as [_ Heq].
      apply Z.eqb_eq in Heq. subst p. simpl.
      unfold EventsPageView.variant. now rewrite Z.eqb_refl.
    + intros p. unfold EventsPageView.variant.
      now destruct (currentPage =? p).
Qed.

Lemma X4_one_button_highlighted_witness :
  NoDup (map fst (EventsPageView.buttons 30 29))
  /\ filter (fun b => String.eqb (snd b) "default") (EventsPageView.buttons 30 29)
     = [(29, "default")].
Proof. apply (X4_one_button_highlighted 30 29); lia. Defined.

Lemma goToPageItems_iff (totalPages v : Z) :
  In v (EventsPage.goToPageItems totalPages) <-> 1 <= v <= totalPages.
Proof.
  split; [apply goToPageItems_In|].
  intros Hv. unfold EventsPage.goToPageItems, Array_from.
  apply in_map_iff. exists (Z.to_nat (v - 1)). split; [lia|].
  apply in_seq. lia.
Qed.

(** X5: the "Go to page" select offers exactly the pages 1 to
    [totalPages]: choosing any of them makes it the current page in one
    step, from whatever page; a numbered button moves the current page by
    at most four pages, and every numbered button is also an entry of the
    select. *)
Theorem X5_select_reaches_every_page (totalPages currentPage target : Z) :
  1 <= currentPage <= totalPages ->
  (1 <= target <= totalPages ->
   EventsPage.step totalPages currentPage (EventsPage.SelectPage target) = target)
  /\ (EventsPage.rendered totalPages currentPage (EventsPage.SelectPage target) = true
      <-> 1 <= target <= totalPages)
  /\ (EventsPage.rendered totalPages currentPage (EventsPage.ClickPage target) = true ->
      currentPage - 4 <= target <= currentPage + 4
      /\ EventsPage.rendered totalPages currentPage
           (EventsPage.SelectPage target) = true).
Proof.
  intros Hcur.
  assert (Hsel : EventsPage.rendered totalPages currentPage
                   (EventsPage.SelectPage target) = true
                 <-> 1 <= target <= totalPages).
  { simpl. rewrite Z_mem_In. apply goToPageItems_iff. }
  split; [|split; [exact Hsel|]].
  - intros Ht. unfold EventsPage.step. now rewrite (proj2 Hsel Ht).
  - intros Hclick. simpl in Hclick. apply Z_mem_In in Hclick.
    assert (Hin := Hclick).
    apply getPaginationNumbers_In in Hin; [|lia].
    split; [|apply Hsel; exact Hin].
    unfold EventsPage.getPaginationNumbers, EventsPage.maxVisible in Hclick.
    rewrite getPaginationNumbersWith_run in Hclick by lia.
    apply run_from_In in Hclick. change (5 / 2) with 2 in Hclick. lia.
Qed.

Lemma X5_select_reaches_every_page_witness :
  EventsPage.step 30 2 (EventsPage.SelectPage 27) = 27
  /\ (30 - 4 <= 26 <= 30 + 4).
Proof.
  split.
  - apply (proj1 (X5_select_reaches_every_page 30 2 27 ltac:(lia))). lia.
  - apply (proj2 (proj2 (X5_select_reaches_every_page 30 30 26 ltac:(lia)))
             ltac:(vm_compute; reflexivity)).
Defined.

(** ** The payments page: further properties *)

Lemma or_zero_not_NaN (n : number) : or_zero n <> NaN.
Proof. destruct n as [z | | |]; try discriminate. destruct z; discriminate. Qed.

Lemma settled_count_not_NaN {B : JsBuiltins} (o : Outcome) :
  PaymentsPage.settled_count o <> NaN.
Proof. destruct o; simpl; try discriminate. apply or_zero_not_NaN. Qed.

Lemma run_state {Payment : Type} {B : JsBuiltins}
      (evs : list (PaymentsPage.Event Payment)) :
  forall rt : PaymentsPage.Runtime Payment,
    PaymentsPage.state (PaymentsPage.run evs rt)
    = fold_left (fun st ev => PaymentsPage.handle ev st) evs (PaymentsPage.state rt).
Proof.
  unfold PaymentsPage.run.
  induction evs as [|ev evs IH]; intros rt; simpl; [reflexivity|].
  now rewrite IH.
Qed.

(** X6: no badge of the payments page ever shows [NaN]: whatever the count
    fetches return, bodies of any shape included, and whatever else
    happens on the page, each of the three counts is a number other than
    [NaN]. *)
Theorem X6_counts_are_never_NaN {Payment : Type} {B : JsBuiltins}
        (evs : list (PaymentsPage.Event Payment)) (key : string) :
  let st := PaymentsPage.state (PaymentsPage.run evs PaymentsPage.start) in
  PaymentsPage.incomingCount st <> NaN
  /\ PaymentsPage.allCount st <> NaN
  /\ PaymentsPage.outgoingCount st <> NaN
  /\ PaymentsPage.badge key st <> NaN.
Proof.
  intros st. subst st. rewrite run_state.
  assert (Hinv : forall st0 : PaymentsPage.PageState Payment,
             (PaymentsPage.incomingCount st0 <> NaN
              /\ PaymentsPage.allCount st0 <> NaN
              /\ PaymentsPage.outgoingCount st0 <> NaN) ->
             let st := fold_left (fun st ev => PaymentsPage.handle ev st) evs st0 in
             PaymentsPage.incomingCount st <> NaN
             /\ PaymentsPage.allCount st <> NaN
             /\ PaymentsPage.outgoingCount st <> NaN).
  { induction evs as [|ev evs IH]; intros st0 Hst0; simpl; [exact Hst0|].
    apply IH. destruct Hst0 as [Hi [Ha Ho]].
    destruct ev as [| o | o | o | applied | ps | k]; simpl;
      repeat split; try assumption; try apply settled_count_not_NaN.
    all: unfold PaymentsPage.handleApplyFilters;
      destruct (PaymentsPage.paymentState applied); assumption. }
  destruct (Hinv (PaymentsPage.state PaymentsPage.start)) as [Hi [Ha Ho]].
  { simpl. repeat split; discriminate. }
  repeat split; try assumption.
  unfold PaymentsPage.badge.
  destruct (String.eqb key "incoming"); [assumption|].
  destruct (String.eqb key "all"); [assumption|].
  destruct (String.eqb key "outgoing"); [assumption|discriminate].
Qed.

Lemma handle_selectedState {Payment : Type} {B : JsBuiltins}
      (ev : PaymentsPage.Event Payment) (st : PaymentsPage.PageState Payment) :
  PaymentsPage.selectedState (PaymentsPage.handle ev st)
  = match ev with
    | PaymentsPage.ApplyFilters applied =>
        match PaymentsPage.paymentState applied with
        | Some s => PaymentsPage.PaymentState_string s
        | None => PaymentsPage.selectedState st
        end
    | _ => PaymentsPage.selectedState st
    end.
Proof.
  destruct ev as [| | | | applied | |]; try reflexivity.
  simpl. unfold PaymentsPage.handleApplyFilters.
  now destruct (PaymentsPage.paymentState applied).
Qed.

(** X7: [selectedState] follows the last applied criteria that named a
    settlement state and nothing else: criteria without [paymentState],
    count responses, new payments and clicks on the type buttons leave it
    as it was.  Hence once a settlement state has been applied,
    [selectedState] never goes back to ["all"], even when the criteria are
    cleared. *)
Theorem X7_selectedState_is_sticky {Payment : Type} {B : JsBuiltins}
        (evs : list (PaymentsPage.Event Payment))
        (rt : PaymentsPage.Runtime Payment) :
  let before := PaymentsPage.selectedState (PaymentsPage.state rt) in
  let after := PaymentsPage.selectedState
                 (PaymentsPage.state (PaymentsPage.run evs rt)) in
  after = match PaymentsPageTrace.last_payment_state evs with
          | Some s => PaymentsPage.PaymentState_string s
          | None => before
          end
  /\ (before <> "all" -> after <> "all").
Proof.
  intros before after.
  assert (Hafter : after = match PaymentsPageTrace.last_payment_state evs with
                           | Some s => PaymentsPage.PaymentState_string s
                           | None => before
                           end).
  { subst before after. rewrite run_state.
    generalize (PaymentsPage.state rt). clear rt.
    induction evs as [|ev evs IH]; intros st; simpl; [reflexivity|].
    rewrite IH.
    destruct (PaymentsPageTrace.last_payment_state evs) as [s|]; [reflexivity|].
    rewrite handle_selectedState.
    destruct ev as [| | | | applied | |]; reflexivity. }
  split; [exact Hafter|].
  intros Hbefore. rewrite Hafter.
  destruct (PaymentsPageTrace.last_payment_state evs) as [[| |]|];
    simpl; try discriminate. exact Hbefore.
Qed.

Lemma X7_selectedState_is_sticky_witness :
  let rt := @PaymentsPage.run unit plain_builtins
              [PaymentsPage.Mount; PaymentsPage.ApplyFilters settled_january]
              PaymentsPage.start in
  let rt' := @PaymentsPage.run unit plain_builtins
               [PaymentsPage.ApplyFilters PaymentsPage.no_filters;
                PaymentsPage.ClickType "all"] rt in
  PaymentsPage.filters (PaymentsPage.state rt') = PaymentsPage.no_filters
  /\ PaymentsPage.selectedState (PaymentsPage.state rt') <> "all".
Proof.
  intros rt rt'. split; [reflexivity|].
  apply (proj2 (@X7_selectedState_is_sticky unit plain_builtins
                  [PaymentsPage.ApplyFilters PaymentsPage.no_filters;
                   PaymentsPage.ClickType "all"] rt)).
  vm_compute. discriminate.
Defined.

(** X8: a total that is present in the envelope, that is neither
    [undefined] nor [null], is the only thing the count is read from: two
    responses with the same total give the same count whatever records
    they return, and a present total that is not a number gives 0, not the
    length of the returned list.  A [null] total counts as absent: the
    count is then the length of the list. *)
Theorem X8_present_total_masks_records {B : JsBuiltins} (total : value) :
  (is_nullish total = false ->
   forall items items' : value,
     PaymentsPage.settled_count (Json (PaymentsPageTrace.body total items))
     = PaymentsPage.settled_count (Json (PaymentsPageTrace.body total items')))
  /\ (is_nullish total = false -> Number total = NaN ->
      forall items : value,
        PaymentsPage.settled_count (Json (PaymentsPageTrace.body total items))
        = Fin 0)
  /\ (forall records : list value,
         PaymentsPage.settled_count
           (Json (PaymentsPageTrace.body VNull (VArr records)))
         = Fin (Z.of_nat (List.length records))).
Proof.
  assert (Hread : is_nullish total = false ->
                  forall items,
                    PaymentsPage.settled_count
                      (Json (PaymentsPageTrace.body total items))
                    = or_zero (Number total)).
  { intros Hpresent items. simpl. unfold PaymentsPage.count.
    change (PaymentsPage.total_items (PaymentsPageTrace.body total items))
      with total.
    now rewrite !(coalesce_present _ _ Hpresent). }
  split; [|split].
  - intros Hpresent items items'. now rewrite !Hread.
  - intros Hpresent Hnan items. now rewrite Hread, Hnan.
  - intros records. simpl. apply or_zero_Fin.
Qed.

Lemma X8_present_total_masks_records_witness :
  @PaymentsPage.settled_count plain_builtins
    (Json (PaymentsPageTrace.body (VStr "n/a") (VArr [VNull; VNull]))) = Fin 0
  /\ @PaymentsPage.settled_count plain_builtins
       (Json (PaymentsPageTrace.body (VNum (Fin 9)) (VArr [VNull])))
     = @PaymentsPage.settled_count plain_builtins
         (Json (PaymentsPageTrace.body (VNum (Fin 9)) VUndefined)).
Proof.
  split.
  - apply (proj1 (proj2 (@X8_present_total_masks_records plain_builtins
                           (VStr "n/a")))); reflexivity.
  - apply (proj1 (@X8_present_total_masks_records plain_builtins (VNum (Fin 9))));
      reflexivity.
Defined.

(** X16: the payments page sends its three count requests when it mounts
    and never again: after any run of events that starts the page,
    applied filters, new payments and settled fetches included, the
    requests sent are the incoming, all and outgoing count requests, once
    each. *)
Theorem X16_count_requests_sent_once {Payment : Type} {B : JsBuiltins}
        (ev : PaymentsPage.Event Payment)
        (evs : list (PaymentsPage.Event Payment)) :
  let sent := PaymentsPage.requests
                (PaymentsPage.run (ev :: evs) PaymentsPage.start) in
  sent = [PaymentsPage.incoming_url; PaymentsPage.all_url;
          PaymentsPage.outgoing_url]
  /\ NoDup sent
  /\ sent = PaymentsPage.requests (PaymentsPage.step PaymentsPage.start ev).
Proof.
  intros sent. subst sent. rewrite counts_requested_once.
  split; [reflexivity|]. split; [|reflexivity].
  repeat constructor; simpl; intros Hin;
    repeat (destruct Hin as [Hin | Hin]; [discriminate Hin|]); exact Hin.
Qed.

(** X17: the active criteria of the payments page are exactly the object
    of the last [ApplyFilters] event, or the previous criteria when there
    was none: count responses, new payments and clicks on the type
    buttons never change them, and nothing of an earlier application is
    merged into a later one. *)
Theorem X17_filters_are_last_applied {Payment : Type} {B : JsBuiltins}
        (evs : list (PaymentsPage.Event Payment))
        (rt : PaymentsPage.Runtime Payment) :
  PaymentsPage.filters (PaymentsPage.state (PaymentsPage.run evs rt))
  = match PaymentsPageTrace.last_applied evs with
    | Some applied => applied
    | None => PaymentsPage.filters (PaymentsPage.state rt)
    end.
Proof.
  rewrite run_state. generalize (PaymentsPage.state rt). clear rt.
  induction evs as [|ev evs IH]; intros st; simpl; [reflexivity|].
  rewrite IH.
  destruct (PaymentsPageTrace.last_applied evs) as [applied|]; [reflexivity|].
  destruct ev as [| | | | applied | |]; try reflexivity.
  apply handleApplyFilters_filters.
Qed.

(** ** The payment details page *)

Lemma coalesce_defined (a b : value) :
  is_nullish b = false -> is_nullish (coalesce a b) = false.
Proof. intros Hb. destruct a; simpl; try reflexivity; exact Hb. Qed.

Lemma read_payment_complete (payment : value) :
  PaymentDetailsPage.is_complete (PaymentDetailsPage.read_payment payment) = true.
Proof.
  unfold PaymentDetailsPage.is_complete, PaymentDetailsPage.read_payment. simpl.
  rewrite !coalesce_defined by reflexivity. simpl.
  destruct (opt_get payment "creation_time"); reflexivity.
Qed.

Lemma fetchPaymentData_cases (o : Outcome)
      (paymentData : option PaymentDetailsPage.PaymentData) :
  PaymentDetailsPage.fetchPaymentData o paymentData = paymentData
  \/ exists payment,
      PaymentDetailsPage.fetchPaymentData o paymentData
      = Some (PaymentDetailsPage.read_payment payment).
Proof.
  destruct o as [| | json]; simpl; try (now left).
  destruct (get json "data") as [payment|]; [|now left].
  destruct (is_nullish payment); [now left | right; now exists payment].
Qed.

(** Every record the page ever holds was built by [read_payment]. *)
Lemma held_record_complete (evs : list PaymentDetailsPage.Event) :
  forall rt d,
    (forall d0, PaymentDetailsPage.paymentData rt = Some d0 ->
                PaymentDetailsPage.is_complete d0 = true) ->
    PaymentDetailsPage.paymentData (PaymentDetailsPage.run evs rt) = Some d ->
    PaymentDetailsPage.is_complete d = true.
Proof.
  unfold PaymentDetailsPage.run.
  induction evs as [|ev evs IH]; intros rt d Hrt Hd; simpl in Hd.
  - now apply Hrt.
  - apply (IH _ d) in Hd; [exact Hd|]. clear Hd IH.
    intros d0 Hd0. destruct ev as [o | b]; simpl in Hd0.
    + destruct (fetchPaymentData_cases o (PaymentDetailsPage.paymentData rt))
        as [Hsame | [payment Hnew]].
      * rewrite Hsame in Hd0. now apply Hrt.
      * rewrite Hnew in Hd0. injection Hd0 as <-. apply read_payment_complete.
    + now apply Hrt.
Qed.

(** X9: whatever responses arrive and whatever is clicked, a payment held
    by the details page has every text property defined (a missing or
    [null] property of the response has become ["..."]), never has [null]
    as its [creation_time], and has no [paymentId]. *)
Theorem X9_held_payment_is_complete (evs : list PaymentDetailsPage.Event)
        (d : PaymentDetailsPage.PaymentData) :
  PaymentDetailsPage.paymentData
    (PaymentDetailsPage.run evs PaymentDetailsPage.start) = Some d ->
  is_nullish (PaymentDetailsPage.state d) = false
  /\ is_nullish (PaymentDetailsPage.type_ d) = false
  /\ is_nullish (PaymentDetailsPage.amount_sat d) = false
  /\ is_nullish (PaymentDetailsPage.amount_usd d) = false
  /\ is_nullish (PaymentDetailsPage.routing_fee d) = false
  /\ is_nullish (PaymentDetailsPage.invoice d) = false
  /\ is_nullish (PaymentDetailsPage.payment_hash d) = false
  /\ is_nullish (PaymentDetailsPage.completed_at d) = false
  /\ is_nullish (PaymentDetailsPage.public d) = false
  /\ is_nullish (PaymentDetailsPage.date d) = false
  /\ PaymentDetailsPage.creation_time d <> VNull
  /\ PaymentDetailsPage.paymentId d = VUndefined.
Proof.
  intros Hd.
  apply held_record_complete in Hd; [|intros d0 Hd0; discriminate Hd0].
  unfold PaymentDetailsPage.is_complete in Hd.
  repeat (apply andb_true_iff in Hd; destruct Hd as [Hd ?]).
  repeat match goal with
         | H : negb _ = true |- _ => apply negb_true_iff in H
         end.
  repeat split; try assumption.
  - intros Hnull. rewrite Hnull in *. discriminate.
  - destruct (PaymentDetailsPage.paymentId d); try discriminate. reflexivity.
Qed.

Lemma X9_held_payment_is_complete_witness :
  is_nullish (PaymentDetailsPage.type_
                (PaymentDetailsPage.read_payment
                   (opt_get details_body "data"))) = false
  /\ PaymentDetailsPage.creation_time
       (PaymentDetailsPage.read_payment (opt_get details_body "data")) <> VNull.
Proof.
  destruct (X9_held_payment_is_complete
              [PaymentDetailsPage.Settled FetchRejected;
               PaymentDetailsPage.Settled (Json details_body);
               PaymentDetailsPage.Click PaymentDetailsPage.CopyInvoice]
              (PaymentDetailsPage.read_payment (opt_get details_body "data"))
              eq_refl)
    as [_ [Htype [_ [_ [_ [_ [_ [_ [_ [_ [Htime _]]]]]]]]]]].
  split; assumption.
Defined.

(** X10: the Network and Description cells, which read [paymentId], show
    ["..."] in every state the details page can reach, also after a
    response that carries a [paymentId]. *)
Theorem X10_paymentId_cells_show_placeholder
        (evs : list PaymentDetailsPage.Event) :
  PaymentDetailsPage.text_cell PaymentDetailsPage.paymentId
    (PaymentDetailsPage.paymentData
       (PaymentDetailsPage.run evs PaymentDetailsPage.start))
  = VStr "...".
Proof.
  unfold PaymentDetailsPage.text_cell, PaymentDetailsPage.field.
  destruct (PaymentDetailsPage.paymentData
              (PaymentDetailsPage.run evs PaymentDetailsPage.start))
    as [d|] eqn:Hd; [|reflexivity].
  apply held_record_complete in Hd; [|intros d0 Hd0; discriminate Hd0].
  unfold PaymentDetailsPage.is_complete in Hd.
  apply andb_true_iff in Hd. destruct Hd as [_ Hid].
  destruct (PaymentDetailsPage.paymentId d); try discriminate. reflexivity.
Qed.

(** X11: a fetch of the details page that fails, or whose body is nullish
    or has a nullish [data], leaves the payment on display untouched: the
    previous payment stays, and nothing stays nothing.  Any other response
    replaces the payment as a whole by what is read from [data]: no
    property of the previous payment survives. *)
Theorem X11_failed_fetch_keeps_payment (json : value)
        (previous other : option PaymentDetailsPage.PaymentData) :
  PaymentDetailsPage.fetchPaymentData FetchRejected previous = previous
  /\ PaymentDetailsPage.fetchPaymentData JsonRejected previous = previous
  /\ (is_nullish json || is_nullish (opt_get json "data") = true ->
      PaymentDetailsPage.fetchPaymentData (Json json) previous = previous)
  /\ (is_nullish json || is_nullish (opt_get json "data") = false ->
      PaymentDetailsPage.fetchPaymentData (Json json) previous
      = Some (PaymentDetailsPage.read_payment (opt_get json "data"))
      /\ PaymentDetailsPage.fetchPaymentData (Json json) previous
         = PaymentDetailsPage.fetchPaymentData (Json json) other).
Proof.
  split; [reflexivity|]. split; [reflexivity|].
  unfold PaymentDetailsPage.fetchPaymentData, get.
  destruct (is_nullish json); simpl.
  - split; [reflexivity | discriminate].
  - destruct (is_nullish (opt_get json "data")); split; intros Hc;
      try discriminate; [reflexivity | split; reflexivity].
Qed.

Lemma X11_failed_fetch_keeps_payment_witness :
  PaymentDetailsPage.fetchPaymentData (Json (VObj [("error", VStr "not found")]))
    (Some (PaymentDetailsPage.read_payment (opt_get details_body "data")))
  = Some (PaymentDetailsPage.read_payment (opt_get details_body "data"))
  /\ PaymentDetailsPage.fetchPaymentData (Json details_body) None
     = Some (PaymentDetailsPage.read_payment (opt_get details_body "data")).
Proof.
  split.
  - apply (proj1 (proj2 (proj2 (X11_failed_fetch_keeps_payment
             (VObj [("error", VStr "not found")])
             (Some (PaymentDetailsPage.read_payment (opt_get details_body "data")))
             None)))).
    reflexivity.
  - apply (proj2 (proj2 (proj2 (X11_failed_fetch_keeps_payment
             details_body None None)))).
    reflexivity.
Defined.

(** X12: nothing but real text reaches the clipboard: in every state the
    details page can reach, each text written by a copy button is truthy
    and is not the placeholder ["..."]; in particular a copy button
    clicked before any payment is loaded, or for a property the response
    lacked, writes nothing. *)
Theorem X12_clipboard_never_gets_placeholder
        (evs : list PaymentDetailsPage.Event) (b : PaymentDetailsPage.CopyButton)
        (payment : value) :
  Forall (fun text => truthy text = true /\ is_placeholder text = false)
         (PaymentDetailsPage.clipboard
            (PaymentDetailsPage.run evs PaymentDetailsPage.start))
  /\ PaymentDetailsPage.copyToClipboard
       (PaymentDetailsPage.field (PaymentDetailsPage.copied b) None) [] = []
  /\ (is_nullish (PaymentDetailsPage.copied b
                    (PaymentDetailsPage.read_payment payment)) = false)
  /\ (PaymentDetailsPage.copied b (PaymentDetailsPage.read_payment payment)
      = VStr "..." ->
      forall clipboard,
        PaymentDetailsPage.copyToClipboard
          (PaymentDetailsPage.copied b (PaymentDetailsPage.read_payment payment))
          clipboard = clipboard).
Proof.
  split; [|split; [reflexivity|split]].
  - unfold PaymentDetailsPage.run.
    assert (Hinv : forall rt,
               Forall (fun text => truthy text = true /\ is_placeholder text = false)
                      (PaymentDetailsPage.clipboard rt) ->
               Forall (fun text => truthy text = true /\ is_placeholder text = false)
                      (PaymentDetailsPage.clipboard
                         (fold_left PaymentDetailsPage.step evs rt))).
    { induction evs as [|ev evs IH]; intros rt Hrt; simpl; [exact Hrt|].
      apply IH. destruct ev as [o | b']; simpl; [exact Hrt|].
      unfold PaymentDetailsPage.copyToClipboard.
      destruct (truthy _) eqn:Ht; simpl; [|exact Hrt].
      destruct (is_placeholder _) eqn:Hp; [exact Hrt|].
      apply Forall_app. split; [exact Hrt|]. constructor; [now split | constructor]. }
    apply Hinv. constructor.
  - destruct b; simpl; now apply coalesce_defined.
  - intros Hph clipboard. rewrite Hph. reflexivity.
Qed.

Lemma X12_clipboard_never_gets_placeholder_witness :
  PaymentDetailsPage.clipboard
    (PaymentDetailsPage.run
       [PaymentDetailsPage.Click PaymentDetailsPage.CopyInvoice;
        PaymentDetailsPage.Settled (Json details_body);
        PaymentDetailsPage.Click PaymentDetailsPage.CopyPublic;
        PaymentDetailsPage.Click PaymentDetailsPage.CopyInvoice]
       PaymentDetailsPage.start) = [VStr "lnbc1"]
  /\ PaymentDetailsPage.copyToClipboard
       (PaymentDetailsPage.copied PaymentDetailsPage.CopyPublic
          (PaymentDetailsPage.read_payment (opt_get details_body "data")))
       [VStr "lnbc1"] = [VStr "lnbc1"].
Proof.
  split; [reflexivity|].
  apply (proj2 (proj2 (proj2 (X12_clipboard_never_gets_placeholder
           [] PaymentDetailsPage.CopyPublic (opt_get details_body "data"))))).
  reflexivity.
Defined.

(** X13: the computed cells of the details page.  Before a payment is
    loaded the amount and date cells show the placeholder.  After a
    response the amount cell shows the placeholder exactly when the
    response had no amount ([undefined], [null] or the text ["..."]) and
    the formatted [Number] of the amount otherwise; the date cell shows a
    date exactly when [creation_time.secs_since_epoch] is truthy, so a
    missing creation time, a [null] one and a time of 0 seconds all show
    the placeholder. *)
Theorem X13_amount_and_date_cells {B : JsBuiltins} (payment : value) :
  let loaded := Some (PaymentDetailsPage.read_payment payment) in
  let amount := opt_get payment "amount_sat" in
  let secs := opt_get (opt_get payment "creation_time") "secs_since_epoch" in
  PaymentDetailsPage.number_cell PaymentDetailsPage.amount_sat None
  = PaymentDetailsPage.Placeholder
  /\ PaymentDetailsPage.date_cell None = PaymentDetailsPage.Placeholder
  /\ PaymentDetailsPage.number_cell PaymentDetailsPage.amount_sat loaded
     = (if is_nullish amount || is_placeholder amount
        then PaymentDetailsPage.Placeholder
        else PaymentDetailsPage.Formatted (Number amount))
  /\ PaymentDetailsPage.date_cell loaded
     = (if truthy secs then PaymentDetailsPage.LocaleDate secs
        else PaymentDetailsPage.Placeholder).
Proof.
  intros loaded amount secs. subst loaded.
  split; [reflexivity|]. split; [reflexivity|]. split.
  - unfold PaymentDetailsPage.number_cell. simpl. fold amount.
    destruct amount as [| | b | n | s | items | fields]; try reflexivity.
    simpl. now destruct (String.eqb s "...").
  - unfold PaymentDetailsPage.date_cell. simpl. subst secs.
    now destruct (opt_get payment "creation_time").
Qed.

(** ** The header of the payments page *)

Lemma split_slash_nonempty (s : string) : PaymentHeader.split_slash s <> [].
Proof.
  destruct s as [|c rest]; simpl; [discriminate|].
  destruct (Ascii.eqb c "/"); [discriminate|].
  destruct (PaymentHeader.split_slash rest); discriminate.
Qed.

Lemma pop_cons (piece : string) (pieces : list string) :
  pieces <> [] -> PaymentHeader.pop (piece :: pieces) = PaymentHeader.pop pieces.
Proof. destruct pieces; [congruence | reflexivity]. Qed.

Lemma split_slash_single (s : string) :
  forall p, PaymentHeader.split_slash s = [p] ->
            p = s /\ PaymentHeader.has_slash s = false.
Proof.
  induction s as [|c rest IH]; intros p Hp; simpl in *.
  - injection Hp as <-. now split.
  - destruct (Ascii.eqb c "/") eqn:Hc.
    + injection Hp as _ Hrest. now apply split_slash_nonempty in Hrest.
    + destruct (PaymentHeader.split_slash rest) as [|piece pieces] eqn:Hs.
      * now apply split_slash_nonempty in Hs.
      * injection Hp as <- ->. destruct (IH piece eq_refl) as [-> Hno].
        now split.
Qed.

Lemma split_slash_no_slash (s : string) :
  PaymentHeader.has_slash s = false -> PaymentHeader.split_slash s = [s].
Proof.
  induction s as [|c rest IH]; simpl; intros Hno; [reflexivity|].
  apply orb_false_iff in Hno. destruct Hno as [Hc Hrest].
  now rewrite Hc, (IH Hrest).
Qed.

(** How [last] reads a pathname from its first character on. *)
Lemma last_String (c : ascii) (rest : string) :
  PaymentHeader.last (String c rest)
  = if (Ascii.eqb c "/" || PaymentHeader.has_slash rest)%bool
    then PaymentHeader.last rest
    else String c rest.
Proof.
  unfold PaymentHeader.last. cbn -[PaymentHeader.pop].
  destruct (Ascii.eqb c "/") eqn:Hc; cbn -[PaymentHeader.pop].
  - now rewrite pop_cons by apply split_slash_nonempty.
  - destruct (PaymentHeader.has_slash rest) eqn:Hrest.
    + destruct (PaymentHeader.split_slash rest) as [|piece pieces] eqn:Hs.
      * now apply split_slash_nonempty in Hs.
      * assert (Hmore : pieces <> []).
        { intros ->. apply split_slash_single in Hs. destruct Hs as [_ Hno].
          congruence. }
        now rewrite !pop_cons by exact Hmore.
    + now rewrite (split_slash_no_slash rest Hrest).
Qed.

Lemma last_has_no_slash (s : string) :
  PaymentHeader.has_slash (PaymentHeader.last s) = false.
Proof.
  induction s as [|c rest IH]; [reflexivity|].
  rewrite last_String.
  destruct (Ascii.eqb c "/" || PaymentHeader.has_slash rest)%bool eqn:Hc;
    [exact IH | exact Hc].
Qed.

Lemma last_decomposition (s : string) :
  exists prefix : string,
    s = (prefix ++ PaymentHeader.last s)%string
    /\ (prefix = "" \/ exists q : string, prefix = (q ++ "/")%string).
Proof.
  induction s as [|c rest [prefix [Hrest Hprefix]]].
  - exists "". split; [reflexivity | now left].
  - rewrite last_String.
    destruct (Ascii.eqb c "/" || PaymentHeader.has_slash rest)%bool eqn:Hc.
    + exists (String c prefix). split; [simpl; now rewrite <- Hrest|].
      right. destruct Hprefix as [-> | [q ->]].
      * simpl in Hrest.
        apply orb_true_iff in Hc. destruct Hc as [Hc | Hc].
        -- apply Ascii.eqb_eq in Hc. subst c. now exists "".
        -- rewrite Hrest, last_has_no_slash in Hc. discriminate.
      * now exists (String c q).
    + exists "". split; [reflexivity | now left].
Qed.

Lemma last_after_slash (q : string) : PaymentHeader.last (q ++ "/")%string = "".
Proof.
  induction q as [|c q IH]; [reflexivity|].
  simpl. rewrite last_String.
  assert (Hslash : PaymentHeader.has_slash (q ++ "/")%string = true).
  { clear. induction q as [|c q IH]; [reflexivity|].
    simpl. rewrite IH. apply orb_true_r. }
  rewrite Hslash, orb_true_r. exact IH.
Qed.

Lemma append_empty (s : string) : (s ++ "")%string = s.
Proof. induction s as [|c s IH]; simpl; [reflexivity | now rewrite IH]. Qed.

Lemma toUpperCase_slash (c C : ascii) :
  PaymentHeader.toUpperCase c = Some C -> Ascii.eqb C "/" = Ascii.eqb c "/".
Proof.
  destruct c as [[] [] [] [] [] [] [] []]; vm_compute; intros Hc;
    try discriminate Hc; injection Hc as <-; reflexivity.
Qed.

(** X14: the last segment the header reads from the pathname is what
    follows the final slash: the pathname is a prefix, empty or ending in
    a slash, followed by that segment, and the segment contains no
    slash. *)
Theorem X14_last_segment (pathname : string) :
  exists prefix : string,
    pathname = (prefix ++ PaymentHeader.last pathname)%string
    /\ PaymentHeader.has_slash (PaymentHeader.last pathname) = false
    /\ (prefix = "" \/ exists q : string, prefix = (q ++ "/")%string).
Proof.
  destruct (last_decomposition pathname) as [prefix [Hp Hprefix]].
  exists prefix. split; [exact Hp|]. split; [apply last_has_no_slash | exact Hprefix].
Qed.


